(** * wagatonix: the EEG/Tobii to NIX converter [converter_modasai_gnode.py]

    A shallow embedding of the converter and the properties of its
    stream-alignment and container-construction logic.

    Conventions of the embedding.
    - A numpy [float64] is Rocq's primitive binary64 [float]; a Python [int]
      is [Z].  One-dimensional numpy arrays are lists, indexed from 0.
    - A line of the Tobii file is a JSON object; a record is a
      [gmap string pyval].  [tobii_data] is either the list of records or the
      literal [False] that [main] passes when no Tobii file is given.
    - An exception is a [Raise] in the [result] type; stateful code runs in
      the monad [M] over the state of the NIX file.
    - The code is Python 2 code ([filter] returns a list that is indexed in
      [determine_offsets]); [filter] and [sorted] are therefore eager.
    - Library functions whose exact output is not reproduced ([np.mean],
      [str]) are the fields of the class [PyLib]. *)

From Stdlib Require Import ZArith Floats Sorted Permutation.
From stdpp Require Import base option list sorting gmap strings pretty.

Set Default Proof Using "Type".
Open Scope Z_scope.

(** ** Python values and exceptions *)

Inductive exn := TypeError | KeyError | IndexError | OverflowError.

Inductive result (A : Type) :=
| Ok (a : A)
| Raise (e : exn).
Arguments Ok {A} a.
Arguments Raise {A} e.

#[global] Instance result_ret : MRet result := fun A a => Ok a.
#[global] Instance result_bind : MBind result := fun A B f m =>
  match m with Ok a => f a | Raise e => Raise e end.

#[warnings="-register-all"]
Inductive pyval :=
| VNone
| VBool (b : bool)
| VInt (z : Z)
| VFloat (f : float)
| VStr (s : string)
| VList (l : list pyval)
| VDict (d : gmap string pyval).

Abbreviation record := (gmap string pyval).

(** What [main] hands down as [tobii_data]: [False] or the parsed lines. *)
Inductive tobii_input :=
| TobiiFalse
| TobiiRecords (rs : list record).

(** Iterating [tobii_data]: a [bool] is not iterable. *)
Definition py_iter (t : tobii_input) : result (list record) :=
  match t with
  | TobiiFalse => Raise TypeError
  | TobiiRecords rs => Ok rs
  end.

Inductive number := NInt (z : Z) | NFloat (f : float).

(** [bool] is a subclass of [int]. *)
Definition as_number (v : pyval) : option number :=
  match v with
  | VBool b => Some (NInt (Z.b2z b))
  | VInt z => Some (NInt z)
  | VFloat f => Some (NFloat f)
  | _ => None
  end.

(** The binary64 nearest to [z] (ties to even). *)
Definition float_of_Z (z : Z) : float :=
  SF2Prim (binary_normalize prec emax z 0 false).

(** [float(z)]: correctly rounded, [OverflowError] beyond the binary64 range. *)
Definition float_of_int (z : Z) : result float :=
  let f := float_of_Z z in
  if PrimFloat.is_infinity f then Raise OverflowError else Ok f.

Definition arith (iop : Z -> Z -> Z) (fop : float -> float -> float)
    (a b : number) : result pyval :=
  match a, b with
  | NInt x, NInt y => Ok (VInt (iop x y))
  | NInt x, NFloat g => f ← float_of_int x; Ok (VFloat (fop f g))
  | NFloat f, NInt y => g ← float_of_int y; Ok (VFloat (fop f g))
  | NFloat f, NFloat g => Ok (VFloat (fop f g))
  end.

(** [a - b] *)
Definition py_sub (a b : pyval) : result pyval :=
  match as_number a, as_number b with
  | Some x, Some y => arith Z.sub PrimFloat.sub x y
  | _, _ => Raise TypeError
  end.

(** [a + b] *)
Definition py_add (a b : pyval) : result pyval :=
  match a, b with
  | VStr s, VStr t => Ok (VStr (s +:+ t))
  | VList l, VList m => Ok (VList (l ++ m))
  | _, _ =>
      match as_number a, as_number b with
      | Some x, Some y => arith Z.add PrimFloat.add x y
      | _, _ => Raise TypeError
      end
  end.

(** The double-quote character as a string. *)
Definition dquote : string := String (Ascii.ascii_of_nat 34) EmptyString.

(** [v == s] for a string literal [s]. *)
Definition py_eq_str (v : pyval) (s : string) : bool :=
  match v with
  | VStr t => String.eqb t s
  | _ => false
  end.

(** [d[k]] on a record. *)
Definition dict_getitem (d : record) (k : string) : result pyval :=
  match d !! k with
  | Some v => Ok v
  | None => Raise KeyError
  end.

(** [d.__contains__(k)] *)
Definition dict_contains (d : record) (k : string) : bool :=
  bool_decide (is_Some (d !! k)).

(** [l[i]] for [0 <= i] on a list or a numpy array. *)
Definition getitem {A} (l : list A) (i : nat) : result A :=
  match l !! i with
  | Some x => Ok x
  | None => Raise IndexError
  end.

(** Python 2 [filter(f, l)]: eager, left to right; the first exception of
    the predicate escapes. *)
Fixpoint py_filter {A} (f : A -> result bool) (l : list A) : result (list A) :=
  match l with
  | [] => Ok []
  | x :: l' =>
      b ← f x;
      r ← py_filter f l';
      Ok (if b : bool then x :: r else r)
  end.

(** ** numpy on one-dimensional arrays *)

(** [np.diff(a)]: [out[i] = a[i+1] - a[i]]. *)
Definition np_diff (a : list float) : list float :=
  zip_with (fun x y => PrimFloat.sub y x) a (tail a).

Definition np_logical_and (a b : list bool) : list bool := zip_with andb a b.

Fixpoint where_from (i : nat) (m : list bool) : list nat :=
  match m with
  | [] => []
  | b :: m' => if b then i :: where_from (S i) m' else where_from (S i) m'
  end.

(** [np.where(m)[0]]: the indices at which [m] holds. *)
Definition np_where (m : list bool) : list nat := where_from 0 m.

(** [np.nonzero(a)[0]]; a NaN is nonzero. *)
Definition np_nonzero (a : list float) : list nat :=
  np_where (map (fun x => negb (PrimFloat.eqb x 0)) a).

(** [a[idx]] with an index array. *)
Definition np_take (a : list float) (idx : list nat) : result (list float) :=
  mapM (getitem a) idx.

(** ** [determine_offsets] *)

(** Line 180. *)
Definition trigger_on_erg (trigger : list float) : list bool :=
  np_logical_and (map (fun d => PrimFloat.ltb 1 d) (np_diff trigger))
                 (map (fun d => PrimFloat.ltb d 5) (np_diff trigger)).

(** Line 181. *)
Definition sync_trigger_tobii (tobii_data : tobii_input) : result (list record) :=
  rs ← py_iter tobii_data;
  inner ← py_filter (fun x => Ok (dict_contains x "dir")) rs;
  py_filter (fun y => v ← dict_getitem y "dir"; Ok (py_eq_str v "out")) inner.

(** Line 182. *)
Definition sync_trigger_eeg (time trigger : list float) : result float :=
  i ← getitem (np_where (trigger_on_erg trigger)) 3;
  getitem time i.

(** Lines 180-184.  [sync_trigger_tobii] is the list that Python 2's
    [filter] returns; line 184 subscripts it and adds an [int] to the record.
    (On Python 3 [filter] returns an iterator and the subscript raises
    [TypeError] whatever the records are.) *)
Definition determine_offsets (time trigger : list float) (tobii_data : tobii_input)
    : result (pyval * pyval) :=
  tobii ← sync_trigger_tobii tobii_data;
  eeg ← sync_trigger_eeg time trigger;
  first ← getitem tobii 0;
  shifted ← py_add (VDict first) (VInt (10 * 10 ^ 6));
  Ok (VFloat eeg, shifted).

(** ** The NIX file: an annotated-array store

    [nixio] is an external library.  Its objects are handles into the file;
    the embedding keeps the file as the state and a handle as the position of
    the object in its table.  Creating an object appends it to its table.

    The store has preconditions that the embedding does not check: the name
    of a new object is not empty, has no slash and is new among its siblings
    (nixio raises [DuplicateName] or [ValueError] otherwise).  The names that
    the converter makes up satisfy them on a file that it has just opened;
    where a name comes from an input, as in [write_session_metadata], the
    precondition is a hypothesis of the properties. *)

Inductive payload :=
| NpArray (a : list float)
| PyList (l : list pyval).

Inductive dim_kind :=
| SampledDim (interval : float)
| RangeDim (ticks : payload)
| SetDim
| AliasRangeDim.

Record dimension := {
  dim_kind_of : dim_kind;
  dim_unit : option string;
  dim_label : option string;
  dim_labels : list string }.

Abbreviation path := (list string).

Record DataArray := {
  da_name : string;
  da_type : string;
  da_data : payload;
  da_label : option string;
  da_unit : option string;
  da_description : option string;
  da_dims : list dimension;
  da_metadata : option path }.

Record Group := {
  g_name : string;
  g_type : string;
  g_data_arrays : list nat;
  g_sources : list nat }.

Record MultiTag := {
  mt_name : string;
  mt_type : string;
  mt_positions : nat;
  mt_extents : option nat;
  mt_references : list nat }.

Record Tag := {
  tag_name : string;
  tag_type : string;
  tag_position : list float;
  tag_extent : list float;
  tag_units : list string;
  tag_references : list nat;
  tag_features : list nat }.

Record nixfile := {
  f_block : option (string * string);
  f_data_arrays : list DataArray;
  f_groups : list Group;
  f_multi_tags : list MultiTag;
  f_tags : list Tag;
  f_sources : list (string * string);
  f_sections : list (path * string);
  f_properties : list (path * string * pyval);
  f_block_metadata : option path;
  f_stdout : list string;
  f_stderr : list string }.

Definition empty_file : nixfile :=
  {| f_block := None; f_data_arrays := []; f_groups := []; f_multi_tags := []; f_tags := [];
     f_sources := []; f_sections := []; f_properties := [];
     f_block_metadata := None; f_stdout := []; f_stderr := [] |}.

(** The state-and-exception monad of the converter. *)
Definition M (A : Type) : Type := nixfile -> result (A * nixfile).

#[global] Instance M_ret : MRet M := fun A a w => Ok (a, w).
#[global] Instance M_bind : MBind M := fun A B f m w =>
  match m w with
  | Ok (a, w') => f a w'
  | Raise e => Raise e
  end.

Definition lift {A} (r : result A) : M A := fun w =>
  match r with Ok a => Ok (a, w) | Raise e => Raise e end.

Definition get_file : M nixfile := fun w => Ok (w, w).

Fixpoint for_each {A} (l : list A) (body : A -> M unit) : M unit :=
  match l with
  | [] => mret tt
  | x :: l' => _ ← body x; for_each l' body
  end.

(** *** Field updates *)

Definition with_block (v : option (string * string)) (w : nixfile) : nixfile :=
  {| f_block := v; f_data_arrays := f_data_arrays w; f_groups := f_groups w;
     f_multi_tags := f_multi_tags w; f_tags := f_tags w; f_sources := f_sources w;
     f_sections := f_sections w; f_properties := f_properties w;
     f_block_metadata := f_block_metadata w;
     f_stdout := f_stdout w; f_stderr := f_stderr w |}.

Definition with_data_arrays (v : list DataArray) (w : nixfile) : nixfile :=
  {| f_block := f_block w; f_data_arrays := v; f_groups := f_groups w; f_multi_tags := f_multi_tags w;
     f_tags := f_tags w; f_sources := f_sources w; f_sections := f_sections w;
     f_properties := f_properties w; f_block_metadata := f_block_metadata w;
     f_stdout := f_stdout w; f_stderr := f_stderr w |}.

Definition with_groups (v : list Group) (w : nixfile) : nixfile :=
  {| f_block := f_block w; f_data_arrays := f_data_arrays w; f_groups := v; f_multi_tags := f_multi_tags w;
     f_tags := f_tags w; f_sources := f_sources w; f_sections := f_sections w;
     f_properties := f_properties w; f_block_metadata := f_block_metadata w;
     f_stdout := f_stdout w; f_stderr := f_stderr w |}.

Definition with_multi_tags (v : list MultiTag) (w : nixfile) : nixfile :=
  {| f_block := f_block w; f_data_arrays := f_data_arrays w; f_groups := f_groups w; f_multi_tags := v;
     f_tags := f_tags w; f_sources := f_sources w; f_sections := f_sections w;
     f_properties := f_properties w; f_block_metadata := f_block_metadata w;
     f_stdout := f_stdout w; f_stderr := f_stderr w |}.

Definition with_tags (v : list Tag) (w : nixfile) : nixfile :=
  {| f_block := f_block w; f_data_arrays := f_data_arrays w; f_groups := f_groups w;
     f_multi_tags := f_multi_tags w; f_tags := v; f_sources := f_sources w;
     f_sections := f_sections w; f_properties := f_properties w;
     f_block_metadata := f_block_metadata w;
     f_stdout := f_stdout w; f_stderr := f_stderr w |}.

Definition with_sources (v : list (string * string)) (w : nixfile) : nixfile :=
  {| f_block := f_block w; f_data_arrays := f_data_arrays w; f_groups := f_groups w;
     f_multi_tags := f_multi_tags w; f_tags := f_tags w; f_sources := v;
     f_sections := f_sections w; f_properties := f_properties w;
     f_block_metadata := f_block_metadata w;
     f_stdout := f_stdout w; f_stderr := f_stderr w |}.

Definition with_sections (v : list (path * string)) (w : nixfile) : nixfile :=
  {| f_block := f_block w; f_data_arrays := f_data_arrays w; f_groups := f_groups w;
     f_multi_tags := f_multi_tags w; f_tags := f_tags w; f_sources := f_sources w;
     f_sections := v; f_properties := f_properties w;
     f_block_metadata := f_block_metadata w;
     f_stdout := f_stdout w; f_stderr := f_stderr w |}.

Definition with_properties (v : list (path * string * pyval)) (w : nixfile) : nixfile :=
  {| f_block := f_block w; f_data_arrays := f_data_arrays w; f_groups := f_groups w;
     f_multi_tags := f_multi_tags w; f_tags := f_tags w; f_sources := f_sources w;
     f_sections := f_sections w; f_properties := v;
     f_block_metadata := f_block_metadata w;
     f_stdout := f_stdout w; f_stderr := f_stderr w |}.

Definition with_block_metadata (v : option path) (w : nixfile) : nixfile :=
  {| f_block := f_block w; f_data_arrays := f_data_arrays w; f_groups := f_groups w;
     f_multi_tags := f_multi_tags w; f_tags := f_tags w; f_sources := f_sources w;
     f_sections := f_sections w; f_properties := f_properties w;
     f_block_metadata := v;
     f_stdout := f_stdout w; f_stderr := f_stderr w |}.

Definition with_stdout (v : list string) (w : nixfile) : nixfile :=
  {| f_block := f_block w; f_data_arrays := f_data_arrays w; f_groups := f_groups w;
     f_multi_tags := f_multi_tags w; f_tags := f_tags w; f_sources := f_sources w;
     f_sections := f_sections w; f_properties := f_properties w;
     f_block_metadata := f_block_metadata w;
     f_stdout := v; f_stderr := f_stderr w |}.

Definition with_stderr (v : list string) (w : nixfile) : nixfile :=
  {| f_block := f_block w; f_data_arrays := f_data_arrays w; f_groups := f_groups w;
     f_multi_tags := f_multi_tags w; f_tags := f_tags w; f_sources := f_sources w;
     f_sections := f_sections w; f_properties := f_properties w;
     f_block_metadata := f_block_metadata w;
     f_stdout := f_stdout w; f_stderr := v |}.

Definition da_with_label (v : string) (d : DataArray) : DataArray :=
  {| da_name := da_name d; da_type := da_type d; da_data := da_data d;
     da_label := Some v; da_unit := da_unit d; da_description := da_description d;
     da_dims := da_dims d; da_metadata := da_metadata d |}.

Definition da_with_unit (v : string) (d : DataArray) : DataArray :=
  {| da_name := da_name d; da_type := da_type d; da_data := da_data d;
     da_label := da_label d; da_unit := Some v; da_description := da_description d;
     da_dims := da_dims d; da_metadata := da_metadata d |}.

Definition da_with_description (v : string) (d : DataArray) : DataArray :=
  {| da_name := da_name d; da_type := da_type d; da_data := da_data d;
     da_label := da_label d; da_unit := da_unit d; da_description := Some v;
     da_dims := da_dims d; da_metadata := da_metadata d |}.

Definition da_with_dims (v : list dimension) (d : DataArray) : DataArray :=
  {| da_name := da_name d; da_type := da_type d; da_data := da_data d;
     da_label := da_label d; da_unit := da_unit d; da_description := da_description d;
     da_dims := v; da_metadata := da_metadata d |}.

Definition da_with_metadata (v : path) (d : DataArray) : DataArray :=
  {| da_name := da_name d; da_type := da_type d; da_data := da_data d;
     da_label := da_label d; da_unit := da_unit d; da_description := da_description d;
     da_dims := da_dims d; da_metadata := Some v |}.

Definition dim_with_unit (v : string) (d : dimension) : dimension :=
  {| dim_kind_of := dim_kind_of d; dim_unit := Some v; dim_label := dim_label d;
     dim_labels := dim_labels d |}.

Definition dim_with_label (v : string) (d : dimension) : dimension :=
  {| dim_kind_of := dim_kind_of d; dim_unit := dim_unit d; dim_label := Some v;
     dim_labels := dim_labels d |}.

Definition dim_with_labels (v : list string) (d : dimension) : dimension :=
  {| dim_kind_of := dim_kind_of d; dim_unit := dim_unit d; dim_label := dim_label d;
     dim_labels := v |}.

Definition new_dim (k : dim_kind) : dimension :=
  {| dim_kind_of := k; dim_unit := None; dim_label := None; dim_labels := [] |}.

Definition g_with_data_arrays (v : list nat) (g : Group) : Group :=
  {| g_name := g_name g; g_type := g_type g; g_data_arrays := v;
     g_sources := g_sources g |}.

Definition g_with_sources (v : list nat) (g : Group) : Group :=
  {| g_name := g_name g; g_type := g_type g; g_data_arrays := g_data_arrays g;
     g_sources := v |}.

Definition mt_with_extents (v : nat) (t : MultiTag) : MultiTag :=
  {| mt_name := mt_name t; mt_type := mt_type t; mt_positions := mt_positions t;
     mt_extents := Some v; mt_references := mt_references t |}.

Definition mt_with_references (v : list nat) (t : MultiTag) : MultiTag :=
  {| mt_name := mt_name t; mt_type := mt_type t; mt_positions := mt_positions t;
     mt_extents := mt_extents t; mt_references := v |}.

Definition tag_with_extent (v : list float) (t : Tag) : Tag :=
  {| tag_name := tag_name t; tag_type := tag_type t; tag_position := tag_position t;
     tag_extent := v; tag_units := tag_units t; tag_references := tag_references t;
     tag_features := tag_features t |}.

Definition tag_with_units (v : list string) (t : Tag) : Tag :=
  {| tag_name := tag_name t; tag_type := tag_type t; tag_position := tag_position t;
     tag_extent := tag_extent t; tag_units := v; tag_references := tag_references t;
     tag_features := tag_features t |}.

Definition tag_with_references (v : list nat) (t : Tag) : Tag :=
  {| tag_name := tag_name t; tag_type := tag_type t; tag_position := tag_position t;
     tag_extent := tag_extent t; tag_units := tag_units t; tag_references := v;
     tag_features := tag_features t |}.

Definition tag_with_features (v : list nat) (t : Tag) : Tag :=
  {| tag_name := tag_name t; tag_type := tag_type t; tag_position := tag_position t;
     tag_extent := tag_extent t; tag_units := tag_units t;
     tag_references := tag_references t; tag_features := v |}.

(** *** The operations of the store that the converter calls *)

Definition print_out (s : string) : M unit := fun w =>
  Ok (tt, with_stdout (f_stdout w ++ [s]) w).

Definition print_err (s : string) : M unit := fun w =>
  Ok (tt, with_stderr (f_stderr w ++ [s]) w).

Definition create_block (name type : string) : M unit := fun w =>
  Ok (tt, with_block (Some (name, type)) w).

Definition create_group (name type : string) : M nat := fun w =>
  Ok (length (f_groups w),
      with_groups (f_groups w ++ [ {| g_name := name; g_type := type;
                                      g_data_arrays := []; g_sources := [] |} ]) w).

Definition create_source (name type : string) : M nat := fun w =>
  Ok (length (f_sources w), with_sources (f_sources w ++ [(name, type)]) w).

Definition create_data_array (name type : string) (data : payload) : M nat := fun w =>
  Ok (length (f_data_arrays w),
      with_data_arrays (f_data_arrays w ++ [ {| da_name := name; da_type := type;
        da_data := data; da_label := None; da_unit := None;
        da_description := None; da_dims := []; da_metadata := None |} ]) w).

Definition create_multi_tag (name type : string) (positions : nat) : M nat := fun w =>
  Ok (length (f_multi_tags w),
      with_multi_tags (f_multi_tags w ++ [ {| mt_name := name; mt_type := type;
        mt_positions := positions; mt_extents := None; mt_references := [] |} ]) w).

Definition create_tag (name type : string) (position : list float) : M nat := fun w =>
  Ok (length (f_tags w),
      with_tags (f_tags w ++ [ {| tag_name := name; tag_type := type;
        tag_position := position; tag_extent := []; tag_units := [];
        tag_references := []; tag_features := [] |} ]) w).

(** Attribute assignment through a handle. *)
Definition update_da (da : nat) (f : DataArray -> DataArray) : M unit := fun w =>
  Ok (tt, with_data_arrays (alter f da (f_data_arrays w)) w).

Definition update_group (g : nat) (f : Group -> Group) : M unit := fun w =>
  Ok (tt, with_groups (alter f g (f_groups w)) w).

Definition update_multi_tag (t : nat) (f : MultiTag -> MultiTag) : M unit := fun w =>
  Ok (tt, with_multi_tags (alter f t (f_multi_tags w)) w).

Definition update_tag (t : nat) (f : Tag -> Tag) : M unit := fun w =>
  Ok (tt, with_tags (alter f t (f_tags w)) w).

(** [da.append_..._dimension(...)]: the new dimension is the last one of
    the array; its handle is the array's handle and its position. *)
Definition append_dimension (da : nat) (k : dim_kind) : M (nat * nat) := fun w =>
  let n := from_option (fun d => length (da_dims d)) 0%nat (f_data_arrays w !! da) in
  Ok ((da, n),
      with_data_arrays
        (alter (fun d => da_with_dims (da_dims d ++ [new_dim k]) d) da (f_data_arrays w)) w).

Definition update_dim (dim : nat * nat) (f : dimension -> dimension) : M unit :=
  update_da dim.1 (fun d => da_with_dims (alter f dim.2 (da_dims d)) d).

(** [group.data_arrays.append(da)] *)
Definition group_append (g da : nat) : M unit :=
  update_group g (fun x => g_with_data_arrays (g_data_arrays x ++ [da]) x).

(** [group.data_arrays], read through the handle. *)
Definition group_data_arrays (g : nat) : M (list nat) := fun w =>
  Ok (from_option g_data_arrays [] (f_groups w !! g), w).

(** [da.name] *)
Definition data_array_name (da : nat) : M string := fun w =>
  Ok (from_option da_name EmptyString (f_data_arrays w !! da), w).

(** [tag.references.append(da)] on a multi-tag. *)
Definition references_append (t da : nat) : M unit :=
  update_multi_tag t (fun x => mt_with_references (mt_references x ++ [da]) x).

(** [nixfile.create_section(name, type)] *)
Definition create_section (name type : string) : M path := fun w =>
  Ok ([name], with_sections (f_sections w ++ [([name], type)]) w).

(** [section[name] = nix.S(type)], and [section[name]] read back, for a
    name that is new in the section. *)
Definition section_set_section (sec : path) (name type : string) : M path := fun w =>
  Ok (sec ++ [name], with_sections (f_sections w ++ [(sec ++ [name], type)]) w).

(** [section[name] = value]: the value of the property [name] of the section
    is replaced if the section has the property, and the property is created
    otherwise. *)
Definition set_property (sec : path) (name : string) (v : pyval)
    (props : list (path * string * pyval)) : list (path * string * pyval) :=
  if existsb (fun p => bool_decide (p.1 = (sec, name))) props
  then map (fun p => if bool_decide (p.1 = (sec, name)) then (sec, name, v) else p)
           props
  else props ++ [(sec, name, v)].

Definition section_set_property (sec : path) (name : string) (v : pyval) : M unit :=
  fun w => Ok (tt, with_properties (set_property sec name v (f_properties w)) w).

(** [block.metadata = sec] *)
Definition set_block_metadata (sec : path) : M unit := fun w =>
  Ok (tt, with_block_metadata (Some sec) w).

(** [block.metadata]; item assignment on [None] is a [TypeError]. *)
Definition block_metadata : M path := fun w =>
  match f_block_metadata w with
  | Some p => Ok (p, w)
  | None => Raise TypeError
  end.

(** ** Library functions taken as given

    [np.mean] (numpy sums pairwise, which is not reproduced), the built-in
    [str] (the decimal rendering of floats and containers) and Python 2's [<]
    on two values that are not both numbers (its fixed order across and
    within the other types). *)
Class PyLib := {
  np_mean : list float -> float;
  py_str : pyval -> string;
  py2_lt : pyval -> pyval -> bool }.

(** [np.finfo(np.float32).eps] is 2^-23. *)
Definition float32_eps : float := 0x1p-23%float.

(** [a[-1]] *)
Definition getitem_last {A} (l : list A) : result A :=
  match last l with
  | Some x => Ok x
  | None => Raise IndexError
  end.

(** [a - v] for a numpy array and a Python scalar; a [str] is no operand. *)
Definition np_sub_scalar (a : list float) (v : pyval) : result (list float) :=
  match as_number v with
  | Some (NFloat f) => Ok (map (fun x => PrimFloat.sub x f) a)
  | Some (NInt z) => f ← float_of_int z; Ok (map (fun x => PrimFloat.sub x f) a)
  | None => Raise TypeError
  end.

(** [a[mask]] with a boolean mask of the same length. *)
Fixpoint np_compress (mask : list bool) (a : list float) : list float :=
  match mask, a with
  | b :: mask', x :: a' => if b then x :: np_compress mask' a' else np_compress mask' a'
  | _, _ => []
  end.

(** The one-character strings of a string. *)
Fixpoint py_chars (s : string) : list pyval :=
  match s with
  | EmptyString => []
  | String c s' => VStr (String c EmptyString) :: py_chars s'
  end.

(** [v[i]] for an integer literal [i >= 0] on a JSON value. *)
Definition py_index (v : pyval) (i : nat) : result pyval :=
  match v with
  | VList l => getitem l i
  | VStr s => getitem (py_chars s) i
  | VDict _ => Raise KeyError
  | _ => Raise TypeError
  end.

(** *** [sorted(l, key=operator.itemgetter(k))] *)

(** The exact value of a number, for comparing an [int] with a [float]:
    Python compares the two by their mathematical values, without rounding
    the [int].  A finite binary64 is [m * 2^e] with [e >= -1074], so [2^1074]
    times its value is an integer.  The rank of a number is its class (-1
    for minus infinity, 0 for a finite value, 1 for plus infinity) and that
    integer; a NaN has no rank.  Ranks compare lexicographically. *)
Definition sf_rank (f : spec_float) : option (Z * Z) :=
  match f with
  | S754_nan => None
  | S754_infinity s => Some (if s then -1 else 1, 0)
  | S754_zero _ => Some (0, 0)
  | S754_finite s m e =>
      Some (0, (if s then Z.neg m else Z.pos m) * 2 ^ (e + 1074))
  end.

Definition num_rank (n : number) : option (Z * Z) :=
  match n with
  | NInt z => Some (0, z * 2 ^ 1074)
  | NFloat f => sf_rank (Prim2SF f)
  end.

Definition rank_lt (a b : Z * Z) : bool :=
  (a.1 <? b.1) || ((a.1 =? b.1) && (a.2 <? b.2)).

(** [a < b] on two numbers of which one is an [int] and one a [float]; a
    comparison with a NaN is false. *)
Definition num_lt (a b : number) : bool :=
  match num_rank a, num_rank b with
  | Some x, Some y => rank_lt x y
  | _, _ => false
  end.

(** [a < b] on sort keys.  Two [int]s and two [float]s compare as such, an
    [int] and a [float] by their exact values; for two keys that are not
    both numbers the order is Python 2's.  (Python 3 raises [TypeError] for
    most such pairs; the timestamps of a stream are numbers.) *)
Definition py_key_lt `{PyLib} (a b : pyval) : bool :=
  match as_number a, as_number b with
  | Some (NInt x), Some (NInt y) => x <? y
  | Some (NFloat f), Some (NFloat g) => PrimFloat.ltb f g
  | Some x, Some y => num_lt x y
  | _, _ => py2_lt a b
  end.

Fixpoint insert_keyed `{PyLib} (x : pyval * record) (l : list (pyval * record))
    : list (pyval * record) :=
  match l with
  | [] => [x]
  | y :: l' => if py_key_lt y.1 x.1 then y :: insert_keyed x l' else x :: y :: l'
  end.

(** The keys are computed first, for every element; the sort is stable. *)
Definition py_sorted `{PyLib} (k : string) (l : list record) : result (list record) :=
  keyed ← mapM (fun e => key ← dict_getitem e k; Ok (key, e)) l;
  Ok ((foldr insert_keyed [] keyed).*2).

Section Converter.
Context `{PyLib}.

(** ** Metadata *)

Definition write_eeg_hardware_metadata (group : nat) : M path :=
  src ← create_source "eeg setup" "eeg.channel_group";
  _ ← update_group group (fun g => g_with_sources (g_sources g ++ [src]) g);
  md ← block_metadata;
  _ ← section_set_section md "hardware" "recording hardware";
  md ← block_metadata;
  section_set_section (md ++ ["hardware"]) "eeg system" "hardware.eeg".

Definition write_channel_metadata (section : path) (name : string) (gain : Z) : M path :=
  sec ← section_set_section section name "eeg_channel";
  _ ← section_set_property sec "gain" (VInt gain);
  mret sec.

Fixpoint first_nonempty (cnt : nat) (mdatrow : list string) : option (nat * string) :=
  match mdatrow with
  | [] => None
  | mdat :: rest =>
      if String.eqb mdat EmptyString then first_nonempty (S cnt) rest else Some (cnt, mdat)
  end.

(** One row of the descriptor: every branch under [mdat != ''] ends in
    [break], so only the first non-empty cell of a row is looked at.
    A slot of [msecs] that still holds the initial [0] is [None]. *)
Definition session_row (mdatrow : list string) (st : list (option path) * nat)
    : M (list (option path) * nat) :=
  let '(msecs, prevcnt) := st in
  match first_nonempty 0 mdatrow with
  | None => mret st
  | Some (cnt, mdat) =>
      if (prevcnt + 1 <? cnt)%nat then mret st
      else
        slot ← lift (getitem msecs cnt);
        match slot with
        | None => lift (Raise TypeError)
        | Some sec =>
            if (cnt + 1 <? length mdatrow)%nat then
              v ← lift (getitem mdatrow (cnt + 1));
              _ ← section_set_property sec mdat (VStr v);
              mret st
            else
              sub ← section_set_section sec mdat mdat;
              if (cnt + 1 <? length msecs)%nat
              then mret (<[(cnt + 1)%nat := Some sub]> msecs, cnt)
              else lift (Raise IndexError)
        end
  end.

Fixpoint session_rows (rows : list (list string)) (st : list (option path) * nat)
    : M unit :=
  match rows with
  | [] => mret tt
  | r :: rows' => st' ← session_row r st; session_rows rows' st'
  end.

(** [mdatrows] is what [csv.reader] yields for the descriptor file. *)
Definition write_session_metadata (block_name metadatafile : string)
    (mdatrows : list (list string)) : M unit :=
  _ ← print_out ("INFO: Writing metadata from '" +:+ metadatafile +:+ "' to NIX");
  md_sec ← create_section block_name "recording";
  _ ← set_block_metadata md_sec;
  session_rows mdatrows (Some md_sec :: replicate 10 None, 0%nat).

(** ** [write_channel_data] *)

Definition write_channel (group : nat) (hw : path) (data : list (list float))
    (time : list float) (offset : pyval) (dt : float) (use_range : bool)
    (ch : nat) : M unit :=
  chdata ← lift (getitem data ch);
  da ← create_data_array ("channel " +:+ pretty (ch + 1)%nat) "nix.eeg.channeldata"
         (NpArray chdata);
  _ ← update_da da (da_with_unit "uV");
  _ ← update_da da (da_with_label "voltage");
  _ ← update_da da (da_with_description "Time");
  _ ← update_da da (da_with_description
         ("The time dimension has been modified by -" +:+ py_str offset));
  dim ← (if use_range : bool
         then append_dimension da (RangeDim (NpArray time))
         else append_dimension da (SampledDim dt));
  _ ← update_dim dim (dim_with_unit "s");
  _ ← update_dim dim (dim_with_label "time");
  sec ← write_channel_metadata hw ("channel " +:+ pretty (ch + 1)%nat)
          (100 + Z.of_nat ch);
  _ ← update_da da (da_with_metadata sec);
  group_append group da.

Definition write_channel_data (data : list (list float)) (time : list float)
    (sr : float) (offset : pyval) : M nat :=
  group ← create_group "eeg data" "nix.eeg.channels";
  hw ← write_eeg_hardware_metadata group;
  let dt := np_mean (np_diff time) in
  let diff := PrimFloat.sub (PrimFloat.div 1 dt) sr in
  let use_range := PrimFloat.ltb float32_eps diff in
  _ ← (if use_range
       then print_err "sampling rate does not match timestamps using range dimension (need more space!)"
       else mret tt);
  let nchan := length data in
  _ ← for_each (seq 0 nchan) (write_channel group hw data time offset dt use_range);
  mret group.

(** ** [save_events] *)

(** Line 109: the positions at which the trigger changes. *)
Definition indices (trigger : list float) : list nat :=
  np_nonzero (np_diff trigger).

(** Line 108: the trigger read at those positions. *)
Definition states (trigger : list float) : result (list float) :=
  np_take trigger (np_nonzero (np_diff trigger)).

(** Line 110. *)
Definition times (trigger : list float) : list float :=
  map (fun i => PrimFloat.div (float_of_Z (Z.of_nat i)) 512%float) (indices trigger).

(** Line 111. *)
Definition corners (states times : list float) : list float :=
  np_compress (map (fun s => PrimFloat.eqb s 8 || PrimFloat.eqb s 10) states) times.

(** Line 112. *)
Definition exp_start (states times : list float) : list float :=
  np_compress (map (fun s => PrimFloat.eqb s 4 || PrimFloat.eqb s 6) states) times.

(** Lines 127-131. *)
Definition extents (exp_start : list float) : payload :=
  let ones := replicate (length exp_start) 1%float in
  if (1 <? length ones)%nat
  then NpArray (<[pred (length ones) := 100%float]> ones)
  else PyList [VInt 100].

Definition apply_multi_tags (what : string) (exp_starts corner_events : nat)
    (da : nat) : M unit :=
  name ← data_array_name da;
  _ ← print_out ("INFO/TAGS: Applying multi_tags to " +:+ what +:+ " data '"
                 +:+ name +:+ "'");
  _ ← references_append exp_starts da;
  references_append corner_events da.

Definition save_events (trigger : list float) (group_eeg group_tobii : nat) : M unit :=
  sts ← lift (states trigger);
  let tms := times trigger in
  let cs := corners sts tms in
  let es := exp_start sts tms in
  _ ← (if (length es <? 1)%nat
       then print_out "WARNING/EEG: Did not find experiment start condition"
       else mret tt);
  corner_positions ← create_data_array "corner_times" "nix.timestamps" (NpArray cs);
  _ ← update_da corner_positions (da_with_label "time");
  _ ← update_da corner_positions (da_with_unit "s");
  _ ← append_dimension corner_positions AliasRangeDim;
  corner_events ← create_multi_tag "corners" "nix.eeg.event" corner_positions;
  exp_positions ← create_data_array "experiment times" "nix.timestamps" (NpArray es);
  _ ← update_da exp_positions (da_with_label "time");
  _ ← update_da exp_positions (da_with_unit "s");
  _ ← append_dimension exp_positions AliasRangeDim;
  exp_extents ← create_data_array "experiment durations" "nix.extents" (extents es);
  _ ← update_da exp_extents (da_with_label "time");
  _ ← update_da exp_extents (da_with_unit "s");
  _ ← append_dimension exp_extents AliasRangeDim;
  exp_starts ← create_multi_tag "experiment starts" "nix.eeg.event" exp_positions;
  _ ← update_multi_tag exp_starts (mt_with_extents exp_extents);
  das ← group_data_arrays group_eeg;
  _ ← for_each das (apply_multi_tags "EEG" exp_starts corner_events);
  das ← group_data_arrays group_tobii;
  for_each das (apply_multi_tags "TOBII" exp_starts corner_events).

(** ** [write_trigger_signal] *)

Definition write_trigger_signal (trigger time : list float) (da_group : nat)
    (offset : pyval) : M unit :=
  trigger_da ← create_data_array "trigger signal" "nix.eeg.trigger" (NpArray trigger);
  _ ← update_da trigger_da (da_with_label "voltage");
  _ ← update_da trigger_da (da_with_unit "mV");
  _ ← update_da trigger_da (da_with_description
         ("The time dimension has been modified by -" +:+ py_str offset));
  dim ← append_dimension trigger_da (SampledDim (np_mean (np_diff time)));
  _ ← update_dim dim (dim_with_unit "s");
  _ ← update_dim dim (dim_with_label "time");
  tag ← create_tag "trigger signal" "nix.eeg.trigger" [0%float];
  final ← lift (getitem_last time);
  _ ← update_tag tag (tag_with_extent [final]);
  _ ← update_tag tag (tag_with_units ["s"]);
  das ← group_data_arrays da_group;
  _ ← for_each das (fun da =>
        update_tag tag (fun t => tag_with_references (tag_references t ++ [da]) t));
  update_tag tag (fun t => tag_with_features (tag_features t ++ [trigger_da]) t).

(** ** The Tobii property channels

    The fourteen writers ([write_tobii_sync_port] ... [write_tobii_pupil_diameter])
    are one body, copied; they differ in the property, the eye filter, the row
    built per record, the name, label, unit, description and labels of the
    array, and in whether the array is appended to the group inside the
    non-empty branch ([Some g]) or returned to the caller ([None]).  The body
    is written once and each writer instantiates it. *)

Record channel := {
  c_prop : string;
  c_eye : option string;
  c_row : record -> result (list pyval);
  c_name : string;
  c_label : string;
  c_unit : option string;
  c_description : string -> string;
  c_labels : list string;
  c_group : option nat }.

(** [filtered = filter(...)] *)
Definition filtered (c : channel) (tobii_data : tobii_input) : result (list record) :=
  rs ← py_iter tobii_data;
  inner ← py_filter (fun x => Ok (dict_contains x (c_prop c))) rs;
  match c_eye c with
  | None => Ok inner
  | Some eye => py_filter (fun y => v ← dict_getitem y "eye"; Ok (py_eq_str v eye)) inner
  end.

(** One turn of [for e in tobii_pc_data]: the entry of [ts] and of [combined]. *)
Definition sample (c : channel) (tobii_offset : pyval) (e : record)
    : result (pyval * pyval) :=
  raw ← dict_getitem e "ts";
  t ← py_sub raw tobii_offset;
  row ← c_row c e;
  Ok (t, VList row).

Definition ts_description (tobii_offset : pyval) : string :=
  "The timestamp has been modified by an offset of -" +:+ py_str tobii_offset.

Definition write_tobii_property (c : channel) (tobii_data : tobii_input)
    (tobii_offset : pyval) : M nat :=
  flt ← lift (filtered c tobii_data);
  tobii_pc_data ← lift (py_sorted "ts" flt);
  samples ← lift (mapM (sample c tobii_offset) tobii_pc_data);
  let ts := samples.*1 in
  let combined := samples.*2 in
  da ← create_data_array (c_name c) "nix.tobii.property" (PyList combined);
  _ ← update_da da (da_with_label (c_label c));
  if (length combined <? 1)%nat then
    _ ← print_out ("INFO/TOBII: no '" +:+ c_prop c +:+ "' data found");
    _ ← append_dimension da SetDim;
    mret da
  else
    _ ← (match c_unit c with
         | Some u => update_da da (da_with_unit u)
         | None => mret tt
         end);
    _ ← update_da da (da_with_description (c_description c (ts_description tobii_offset)));
    dim ← append_dimension da (RangeDim (PyList ts));
    _ ← update_dim dim (dim_with_unit "us");
    _ ← update_dim dim (dim_with_label "timestamp");
    dim ← append_dimension da SetDim;
    _ ← update_dim dim (dim_with_labels (c_labels c));
    _ ← (match c_group c with
         | Some g => group_append g da
         | None => mret tt
         end);
    mret da.

(** The rows of [combined]. *)
Definition row_scalar (prop : string) (e : record) : result (list pyval) :=
  v ← dict_getitem e prop;
  s ← dict_getitem e "s";
  Ok [v; s].

Definition row_vector (prop : string) (e : record) : result (list pyval) :=
  coord ← dict_getitem e prop;
  x ← py_index coord 0;
  y ← py_index coord 1;
  z ← py_index coord 2;
  s ← dict_getitem e "s";
  Ok [x; y; z; s].

Definition row_gaze_pos (e : record) : result (list pyval) :=
  gaze_pos ← dict_getitem e "gp";
  x ← py_index gaze_pos 0;
  y ← py_index gaze_pos 1;
  l ← dict_getitem e "l";
  s ← dict_getitem e "s";
  Ok [x; y; l; s].

Definition row_pipe_ts (e : record) : result (list pyval) :=
  v ← dict_getitem e "pts";
  pv ← dict_getitem e "pv";
  s ← dict_getitem e "s";
  Ok [v; pv; s].

Definition row_sync_port (e : record) : result (list pyval) :=
  d ← dict_getitem e "dir";
  let sig_dir := if py_eq_str d "in" then 1 else 0 in
  sig ← dict_getitem e "sig";
  s ← dict_getitem e "s";
  Ok [VInt sig_dir; sig; s].

Definition sync_port (g : nat) : channel :=
  {| c_prop := "dir"; c_eye := None; c_row := row_sync_port;
     c_name := "sync port"; c_label := "sync port"; c_unit := None;
     c_description := fun ts_desc => ts_desc +:+ "; direction 0=out, 1=in";
     c_labels := ["direction"; "signal"; "error"]; c_group := Some g |}.

Definition eye_video_ts (g : nat) : channel :=
  {| c_prop := "evts"; c_eye := None; c_row := row_scalar "evts";
     c_name := "evts"; c_label := "eye video timestamp"; c_unit := Some "us";
     c_description := fun ts_desc => ts_desc;
     c_labels := ["eye video timestamp"; "error"]; c_group := Some g |}.

Definition video_ts (g : nat) : channel :=
  {| c_prop := "vts"; c_eye := None; c_row := row_scalar "vts";
     c_name := "video timestamp"; c_label := "video timestamp"; c_unit := Some "us";
     c_description := fun ts_desc => ts_desc;
     c_labels := ["video timestamp"; "error"]; c_group := Some g |}.

Definition pipe_ts (g : nat) : channel :=
  {| c_prop := "pts"; c_eye := None; c_row := row_pipe_ts;
     c_name := "pipeline timestamp"; c_label := "pipeline timestamp";
     c_unit := Some "us"; c_description := fun ts_desc => ts_desc;
     c_labels := ["pipe timestamp"; "pipe version"; "error"]; c_group := Some g |}.

Definition accelerometer (g : nat) : channel :=
  {| c_prop := "ac"; c_eye := None; c_row := row_vector "ac";
     c_name := "MEMS accelerometer"; c_label := "rotation"; c_unit := Some "m/s^2";
     c_description := fun ts_desc => ts_desc;
     c_labels := ["X"; "Y"; "Z"; "error"]; c_group := Some g |}.

Definition gyroscope (g : nat) : channel :=
  {| c_prop := "gy"; c_eye := None; c_row := row_vector "gy";
     c_name := "MEMS gyroscope"; c_label := "rotation"; c_unit := None;
     c_description := fun ts_desc => ts_desc;
     c_labels := ["X"; "Y"; "Z"; "error"]; c_group := Some g |}.

Definition gaze_pos_3d (g : nat) : channel :=
  {| c_prop := "gp3"; c_eye := None; c_row := row_vector "gp3";
     c_name := "gaze position 3D"; c_label := "positions"; c_unit := Some "mm";
     c_description := fun ts_desc => ts_desc;
     c_labels := ["X"; "Y"; "Z"; "error"]; c_group := Some g |}.

Definition gaze_pos (g : nat) : channel :=
  {| c_prop := "gp"; c_eye := None; c_row := row_gaze_pos;
     c_name := "gaze position"; c_label := "positions"; c_unit := None;
     c_description := fun ts_desc => ts_desc;
     c_labels := ["X"; "Y"; "l"; "error"]; c_group := Some g |}.

Definition gaze_dir (eye : string) : channel :=
  {| c_prop := "gd"; c_eye := Some eye; c_row := row_vector "gd";
     c_name := "gaze direction " +:+ eye; c_label := "gaze direction";
     c_unit := None; c_description := fun ts_desc => ts_desc;
     c_labels := ["X"; "Y"; "Z"; "error"]; c_group := None |}.

Definition pupil_center (eye : string) : channel :=
  {| c_prop := "pc"; c_eye := Some eye; c_row := row_vector "pc";
     c_name := "pupil center " +:+ eye; c_label := "coordinates";
     c_unit := Some "mm"; c_description := fun ts_desc => ts_desc;
     c_labels := ["X"; "Y"; "Z"; "error"]; c_group := None |}.

Definition pupil_diameter (eye : string) : channel :=
  {| c_prop := "pd"; c_eye := Some eye; c_row := row_scalar "pd";
     c_name := "pupil diameter " +:+ eye; c_label := "pupil diameter";
     c_unit := Some "mm"; c_description := fun ts_desc => ts_desc;
     c_labels := ["diameter"; "error"]; c_group := None |}.

Definition write_tobii_sync_port (g : nat) (tobii_data : tobii_input)
    (tobii_offset : pyval) : M unit :=
  _ ← write_tobii_property (sync_port g) tobii_data tobii_offset; mret tt.

Definition write_tobii_eye_video_ts (g : nat) (tobii_data : tobii_input)
    (tobii_offset : pyval) : M unit :=
  _ ← write_tobii_property (eye_video_ts g) tobii_data tobii_offset; mret tt.

Definition write_tobii_video_ts (g : nat) (tobii_data : tobii_input)
    (tobii_offset : pyval) : M unit :=
  _ ← write_tobii_property (video_ts g) tobii_data tobii_offset; mret tt.

Definition write_tobii_pipe_ts (g : nat) (tobii_data : tobii_input)
    (tobii_offset : pyval) : M unit :=
  _ ← write_tobii_property (pipe_ts g) tobii_data tobii_offset; mret tt.

Definition write_tobii_accelerometer (g : nat) (tobii_data : tobii_input)
    (tobii_offset : pyval) : M unit :=
  _ ← write_tobii_property (accelerometer g) tobii_data tobii_offset; mret tt.

Definition write_tobii_gyroscope (g : nat) (tobii_data : tobii_input)
    (tobii_offset : pyval) : M unit :=
  _ ← write_tobii_property (gyroscope g) tobii_data tobii_offset; mret tt.

Definition write_tobii_gaze_pos_3d (g : nat) (tobii_data : tobii_input)
    (tobii_offset : pyval) : M unit :=
  _ ← write_tobii_property (gaze_pos_3d g) tobii_data tobii_offset; mret tt.

Definition write_tobii_gaze_pos (g : nat) (tobii_data : tobii_input)
    (tobii_offset : pyval) : M unit :=
  _ ← write_tobii_property (gaze_pos g) tobii_data tobii_offset; mret tt.

Definition write_tobii_gaze_dir (tobii_data : tobii_input) (tobii_offset : pyval)
    (eye : string) : M nat :=
  write_tobii_property (gaze_dir eye) tobii_data tobii_offset.

Definition write_tobii_pupil_center (tobii_data : tobii_input) (tobii_offset : pyval)
    (eye : string) : M nat :=
  write_tobii_property (pupil_center eye) tobii_data tobii_offset.

Definition write_tobii_pupil_diameter (tobii_data : tobii_input) (tobii_offset : pyval)
    (eye : string) : M nat :=
  write_tobii_property (pupil_diameter eye) tobii_data tobii_offset.

Definition write_tobii_data (tobii_data : tobii_input) (tobii_offset : pyval) : M nat :=
  group ← create_group "tobii data" "nix.tobii";
  da_left ← write_tobii_pupil_center tobii_data tobii_offset "left";
  _ ← group_append group da_left;
  da_right ← write_tobii_pupil_center tobii_data tobii_offset "right";
  _ ← group_append group da_right;
  da_left ← write_tobii_pupil_diameter tobii_data tobii_offset "left";
  _ ← group_append group da_left;
  da_right ← write_tobii_pupil_diameter tobii_data tobii_offset "right";
  _ ← group_append group da_right;
  da_left ← write_tobii_gaze_dir tobii_data tobii_offset "left";
  _ ← group_append group da_left;
  da_right ← write_tobii_gaze_dir tobii_data tobii_offset "right";
  _ ← group_append group da_right;
  _ ← write_tobii_gaze_pos group tobii_data tobii_offset;
  _ ← write_tobii_gaze_pos_3d group tobii_data tobii_offset;
  _ ← write_tobii_gyroscope group tobii_data tobii_offset;
  _ ← write_tobii_accelerometer group tobii_data tobii_offset;
  _ ← write_tobii_pipe_ts group tobii_data tobii_offset;
  _ ← write_tobii_video_ts group tobii_data tobii_offset;
  _ ← write_tobii_eye_video_ts group tobii_data tobii_offset;
  _ ← write_tobii_sync_port group tobii_data tobii_offset;
  mret group.

(** ** [convert] and [main] *)

Definition convert (time trigger : list float) (data : list (list float))
    (parts : list string) (sr : float) (tobii_data : tobii_input)
    (metadatafile : string) (mdatrows : list (list string))
    (eeg_offset tobii_offset : pyval) : M unit :=
  name ← lift (getitem parts 0);
  _ ← create_block name "nix.recording.session";
  _ ← write_session_metadata name metadatafile mdatrows;
  group_eeg ← write_channel_data data time sr eeg_offset;
  _ ← write_trigger_signal trigger time group_eeg eeg_offset;
  group_tobii ← write_tobii_data tobii_data tobii_offset;
  save_events trigger group_eeg group_tobii.

(** The parsed command line. *)
Record Args := {
  arg_filename : string;
  arg_metadatafile : string;
  arg_tobiifile : string;
  arg_eeg_offset : string;
  arg_tobii_offset : string }.

(** What [load_data] returns. *)
Record eeg_recording := {
  rec_time : list float;
  rec_trigger : list float;
  rec_data : list (list float);
  rec_parts : list string;
  rec_sr : float }.

Inductive exit := SysExit (code : Z) | Finished.

(** Lines 654-657: an offset option that is not the empty string replaces
    the computed offset; argparse delivers the option as a [str]. *)
Definition override (arg : string) (computed : pyval) : pyval :=
  if String.eqb arg EmptyString then computed else VStr arg.

(** Lines 654-662 of [main], as a function of what [determine_offsets]
    returned. *)
Definition main_with_offsets (args : Args) (loaded : eeg_recording)
    (tobii_data : tobii_input) (mdatrows : list (list string))
    (offsets : pyval * pyval) : M exit :=
  let '(eeg_offset, tobii_offset) := offsets in
  let eeg_offset := override (arg_eeg_offset args) eeg_offset in
  let tobii_offset := override (arg_tobii_offset args) tobii_offset in
  time ← lift (np_sub_scalar (rec_time loaded) eeg_offset);
  _ ← convert time (rec_trigger loaded) (rec_data loaded) (rec_parts loaded)
        (rec_sr loaded) tobii_data (arg_metadatafile args) mdatrows
        eeg_offset tobii_offset;
  mret Finished.

(** [main] after argument parsing.  The file system is an input: [isfile]
    is [os.path.isfile(args.metadatafile)], [loaded] what [load_data] returns,
    [tobii_lines] what [load_tobii_data] returns and [mdatrows] the rows of
    the descriptor. *)
Definition main (args : Args) (isfile : bool) (loaded : eeg_recording)
    (tobii_lines : list record) (mdatrows : list (list string)) : M exit :=
  if negb isfile then
    _ ← print_out ("meta data file " +:+ dquote +:+ arg_metadatafile args
                   +:+ dquote +:+ " could not be found.");
    mret (SysExit 0)
  else
    let tobii_data :=
      if String.eqb (arg_tobiifile args) EmptyString then TobiiFalse
      else TobiiRecords tobii_lines in
    offsets ← lift (determine_offsets (rec_time loaded) (rec_trigger loaded)
                      tobii_data);
    main_with_offsets args loaded tobii_data mdatrows offsets.

End Converter.

(** ** Vocabulary of the properties *)

Fixpoint count_where {A} (p : A -> bool) (l : list A) : nat :=
  match l with
  | [] => 0%nat
  | x :: l' => if p x then S (count_where p l') else count_where p l'
  end.

(** [i] is the position of the occurrence number [k] (from 0) of [p] in [l]. *)
Definition occurrence {A} (p : A -> bool) (l : list A) (k i : nat) : Prop :=
  (exists x, l !! i = Some x /\ p x = true) /\ count_where p (take i l) = k.

(** A rising step of the trigger by more than 1 and less than 5: the test of
    line 180. *)
Definition rising_sync (d : float) : bool :=
  PrimFloat.ltb 1 d && PrimFloat.ltb d 5.

(** A step whose magnitude is more than 1 and less than 5, in either
    direction: the sync-class edge in the words of the specification. *)
Definition magnitude_sync (d : float) : bool :=
  PrimFloat.ltb 1 (PrimFloat.abs d) && PrimFloat.ltb (PrimFloat.abs d) 5.

(** ** Sample inputs *)

(** A trigger that pulses between 0 and 3 four times, and its time axis. *)
Definition pulses_trigger : list float :=
  [3%float; 0%float; 3%float; 0%float; 3%float; 0%float; 3%float; 0%float; 3%float].

Definition pulses_time : list float :=
  [0%float; 1%float; 2%float; 3%float; 4%float; 5%float; 6%float; 7%float; 8%float].

(** An outgoing sync record of the Tobii stream. *)
Definition outgoing_record : record :=
  <["ts" := VInt 100]> (<["dir" := VStr "out"]> (<["sig" := VInt 1]>
    (<["s" := VInt 0]> ∅))).

(** The instant that [save_events] gives to the transition at position [i]. *)
Definition event_time (i : nat) : float :=
  PrimFloat.div (float_of_Z (Z.of_nat i)) 512%float.

(** [s == a or s == b] on trigger levels. *)
Definition level_in (a b s : float) : bool :=
  PrimFloat.eqb s a || PrimFloat.eqb s b.

(** The markers that a classification by [level] of the transition positions
    yields: the instants of the positions whose level is [a] or [b]. *)
Definition markers (level : nat -> option float) (instant : nat -> float)
    (a b : float) (positions : list nat) : list float :=
  omap (fun i => s ← level i; if level_in a b s then Some (instant i) else None)
       positions.

(** The trigger of the specification's example. *)
Definition example_trigger : list float :=
  [0%float; 0%float; 8%float; 8%float; 0%float; 0%float; 4%float; 4%float; 0%float].

(** [tag.references] after the arrays [das] were appended. *)
Definition add_references (das : list nat) (x : MultiTag) : MultiTag :=
  mt_with_references (mt_references x ++ das) x.

(** The members of a group, read by handle. *)
Definition members (g : nat) (w : nixfile) : list nat :=
  from_option g_data_arrays [] (f_groups w !! g).

(** A positions or extents array as [save_events] leaves it. *)
Definition event_array (name type : string) (data : payload) : DataArray :=
  {| da_name := name; da_type := type; da_data := data;
     da_label := Some "time"; da_unit := Some "s"; da_description := None;
     da_dims := [new_dim AliasRangeDim]; da_metadata := None |}.

(** The array of channel [ch] as [write_channel_data] leaves it. *)
Definition channel_array `{PyLib} (hw : path) (time : list float) (offset : pyval)
    (dt : float) (use_range : bool) (ch : nat) (chdata : list float) : DataArray :=
  {| da_name := "channel " +:+ pretty (ch + 1)%nat;
     da_type := "nix.eeg.channeldata";
     da_data := NpArray chdata;
     da_label := Some "voltage";
     da_unit := Some "uV";
     da_description :=
       Some ("The time dimension has been modified by -" +:+ py_str offset);
     da_dims :=
       [ {| dim_kind_of := if use_range then RangeDim (NpArray time)
                           else SampledDim dt;
            dim_unit := Some "s"; dim_label := Some "time"; dim_labels := [] |} ];
     da_metadata := Some (hw ++ ["channel " +:+ pretty (ch + 1)%nat]) |}.

(** The warning of [write_channel_data]. *)
Definition range_warning : string :=
  "sampling rate does not match timestamps using range dimension (need more space!)".

(** [group.data_arrays] after the arrays [das] were appended. *)
Definition add_members (das : list nat) (g : Group) : Group :=
  g_with_data_arrays (g_data_arrays g ++ das) g.

(** A sequential mean and a partial [str], to run the converter on samples. *)
Definition sample_lib : PyLib :=
  {| np_mean := fun l =>
       PrimFloat.div (foldl PrimFloat.add 0%float l)
                     (float_of_Z (Z.of_nat (length l)));
     py_str := fun v =>
       match v with
       | VInt z => pretty z
       | VStr s => s
       | _ => "?"
       end;
     py2_lt := fun _ _ => false |}.

(** A record that [filtered] keeps: it has the property and, for an
    eye-specific channel, the eye tag. *)
Definition selects (c : channel) (r : record) : bool :=
  dict_contains r (c_prop c) &&
  match c_eye c with
  | None => true
  | Some eye =>
      match r !! "eye" with
      | Some v => py_eq_str v eye
      | None => false
      end
  end.

(** The raw timestamp of a record: its ["ts"], the sort key. *)
Definition ts_key (e : record) : pyval := default VNone (e !! "ts").

(** A timestamp is a number ([int] or [float]) that is not a NaN. *)
Definition timestamp (v : pyval) : bool :=
  match as_number v with
  | Some n => match num_rank n with Some _ => true | None => false end
  | None => false
  end.

(** The record [e] has the timestamp [k]: Python's [<] tells the two apart
    in neither direction. *)
Definition same_ts `{PyLib} (k : pyval) (e : record) : bool :=
  negb (py_key_lt k (ts_key e)) && negb (py_key_lt (ts_key e) k).

(** The rank of a timestamp. *)
Definition key_rank (v : pyval) : Z * Z :=
  default (0, 0) (as_number v ≫= num_rank).

Definition is_ok {A} (r : result A) : bool :=
  match r with Ok _ => true | Raise _ => false end.

(** A record of the Tobii stream that the channel [c] can take: if it has
    the property of an eye-specific channel it has an eye tag, and if the
    channel keeps it then its ["ts"] is a timestamp and its sample can be
    built. *)
Definition well_formed `{PyLib} (c : channel) (tobii_offset : pyval) (r : record)
    : bool :=
  implb (dict_contains r (c_prop c))
        (match c_eye c with None => true | Some _ => dict_contains r "eye" end) &&
  implb (selects c r)
        (timestamp (ts_key r) && is_ok (sample c tobii_offset r)).

(** The array of a property channel as [write_tobii_property] leaves it, from
    the entries of [ts] and [combined]. *)
Definition property_array `{PyLib} (c : channel) (tobii_offset : pyval)
    (samples : list (pyval * pyval)) : DataArray :=
  if (length (samples.*2) <? 1)%nat then
    {| da_name := c_name c; da_type := "nix.tobii.property";
       da_data := PyList (samples.*2); da_label := Some (c_label c);
       da_unit := None; da_description := None;
       da_dims := [new_dim SetDim]; da_metadata := None |}
  else
    {| da_name := c_name c; da_type := "nix.tobii.property";
       da_data := PyList (samples.*2); da_label := Some (c_label c);
       da_unit := c_unit c;
       da_description := Some (c_description c (ts_description tobii_offset));
       da_dims :=
         [ {| dim_kind_of := RangeDim (PyList (samples.*1));
              dim_unit := Some "us"; dim_label := Some "timestamp";
              dim_labels := [] |};
           {| dim_kind_of := SetDim; dim_unit := None; dim_label := None;
              dim_labels := c_labels c |} ];
       da_metadata := None |}.

(** The groups after a property channel was written. *)
Definition property_groups (c : channel) (samples : list (pyval * pyval))
    (da : nat) (groups : list Group) : list Group :=
  match c_group c with
  | Some g =>
      if (length (samples.*2) <? 1)%nat then groups
      else alter (add_members [da]) g groups
  | None => groups
  end.

(** A decorated record whose key is its timestamp. *)
Definition keyed_ok (x : pyval * record) : Prop :=
  x.1 = ts_key x.2 /\ timestamp x.1 = true.

(** Records of a Tobii stream: three pupil diameters of the left eye, two of
    them with the same timestamp, one of the right eye, and a gyroscope
    record. *)
Definition pd_record (ts : Z) (pd : float) (eye : string) (s : Z) : record :=
  <["ts" := VInt ts]> (<["pd" := VFloat pd]> (<["eye" := VStr eye]>
    (<["s" := VInt s]> ∅))).

Definition gy_record (ts : Z) : record :=
  <["ts" := VInt ts]>
    (<["gy" := VList [VFloat 1%float; VFloat 2%float; VFloat 3%float]]>
      (<["s" := VInt 0]> ∅)).

Definition sample_records : list record :=
  [pd_record 300 3.5%float "left" 0;
   pd_record 100 3%float "left" 0;
   gy_record 150;
   pd_record 100 3.25%float "left" 1;
   pd_record 200 2%float "right" 0].

(** The eight channels that [write_tobii_data] hands the group to, in the
    order in which it writes them. *)
Definition shared_channels (g : nat) : list channel :=
  [gaze_pos g; gaze_pos_3d g; gyroscope g; accelerometer g;
   pipe_ts g; video_ts g; eye_video_ts g; sync_port g].

(** The six eye-specific channels, in the order in which they are written. *)
Definition eye_channels : list channel :=
  [pupil_center "left"; pupil_center "right";
   pupil_diameter "left"; pupil_diameter "right";
   gaze_dir "left"; gaze_dir "right"].

(** The channel keeps no record of the stream. *)
Definition is_empty_channel (c : channel) (tobii_data : tobii_input) : bool :=
  match filtered c tobii_data with
  | Ok [] => true
  | _ => false
  end.

(** The handles of the non-empty channels among [cs], when the arrays of
    [cs] are created one after the other from the handle [i] on. *)
Fixpoint present (tobii_data : tobii_input) (i : nat) (cs : list channel)
    : list nat :=
  match cs with
  | [] => []
  | c :: cs' =>
      (if is_empty_channel c tobii_data then [] else [i])
      ++ present tobii_data (S i) cs'
  end.

(** The state while [write_tobii_data] runs on the file [w0]: the arrays
    named [names] were created, the group [g] is the last group and its
    members are [ms]; the multi-tags are untouched. *)
Definition tobii_progress (w0 : nixfile) (names : list string) (ms : list nat)
    (w : nixfile) : Prop :=
  da_name <$> f_data_arrays w = (da_name <$> f_data_arrays w0) ++ names /\
  (exists G, f_groups w = f_groups w0 ++ [G] /\ g_data_arrays G = ms) /\
  f_multi_tags w = f_multi_tags w0.

(** Two channels sampled at 512 Hz, and a file whose block has metadata. *)
Definition sample_time : list float :=
  [0%float; 0.001953125%float; 0.00390625%float; 0.005859375%float].

Definition sample_data : list (list float) :=
  [[1%float; 2%float; 3%float; 4%float]; [5%float; 6%float; 7%float; 8%float]].

Definition sample_file : nixfile := with_block_metadata (Some ["session"]) empty_file.

(** The Tobii file that [main] is given. *)
Definition tobii_file_arg : string := "tobii.json".

(** [tobii_data] in [main]. *)
Definition main_tobii_data (args : Args) (tobii_lines : list record) : tobii_input :=
  if String.eqb (arg_tobiifile args) EmptyString then TobiiFalse
  else TobiiRecords tobii_lines.


(** A recording whose trigger never moves: it has no sync edge. *)
Definition flat_recording : eeg_recording :=
  {| rec_time := sample_time;
     rec_trigger := [0%float; 0%float; 0%float; 0%float];
     rec_data := sample_data;
     rec_parts := ["rec"; "1"];
     rec_sr := 512%float |}.

(** A record of the sync port that reports an outgoing pulse. *)
Definition outgoing (r : record) : bool :=
  match r !! "dir" with
  | Some v => py_eq_str v "out"
  | None => false
  end.

(** A command line that gives the EEG offset only. *)
Definition eeg_offset_args : Args :=
  {| arg_filename := "rec_1.mat"; arg_metadatafile := "meta.csv";
     arg_tobiifile := tobii_file_arg; arg_eeg_offset := "1.5";
     arg_tobii_offset := EmptyString |}.

(** The name that [write_channel_data] gives to channel [ch] (from 0). *)
Definition channel_name (ch : nat) : string := "channel " +:+ pretty (ch + 1)%nat.

(** The trigger array and the tag that [write_trigger_signal] leave. *)
Definition trigger_array `{PyLib} (trigger time : list float) (offset : pyval)
    : DataArray :=
  {| da_name := "trigger signal"; da_type := "nix.eeg.trigger";
     da_data := NpArray trigger; da_label := Some "voltage"; da_unit := Some "mV";
     da_description :=
       Some ("The time dimension has been modified by -" +:+ py_str offset);
     da_dims := [ {| dim_kind_of := SampledDim (np_mean (np_diff time));
                     dim_unit := Some "s"; dim_label := Some "time";
                     dim_labels := [] |} ];
     da_metadata := None |}.

Definition trigger_tag (final : float) (references : list nat) (feature : nat) : Tag :=
  {| tag_name := "trigger signal"; tag_type := "nix.eeg.trigger";
     tag_position := [0%float]; tag_extent := [final]; tag_units := ["s"];
     tag_references := references; tag_features := [feature] |}.

(** A record with a pupil diameter but no eye tag, and one without a
    timestamp. *)
Definition untagged_record : record :=
  <["ts" := VInt 100]> (<["pd" := VFloat 3%float]> (<["s" := VInt 0]> ∅)).

Definition untimed_record : record :=
  <["gy" := VList [VFloat 1%float; VFloat 2%float; VFloat 3%float]]>
    (<["s" := VInt 0]> ∅).

(** A descriptor that [write_session_metadata] can take: before its first
    heading in column 0 (a row whose only cell with text is the first and
    last one) no row has its first cell with text in column 1. *)
Fixpoint no_orphan (rows : list (list string)) : bool :=
  match rows with
  | [] => true
  | r :: rows' =>
      match first_nonempty 0 r with
      | Some (0%nat, _) => if (1 <? length r)%nat then no_orphan rows' else true
      | Some (1%nat, _) => false
      | _ => no_orphan rows'
      end
  end.

(** The file [w'] differs from [w] in its sections and properties only. *)
Definition metadata_only (w w' : nixfile) : Prop :=
  f_block w' = f_block w /\ f_data_arrays w' = f_data_arrays w /\
  f_groups w' = f_groups w /\ f_multi_tags w' = f_multi_tags w /\
  f_tags w' = f_tags w /\ f_sources w' = f_sources w /\
  f_block_metadata w' = f_block_metadata w /\
  f_stdout w' = f_stdout w /\ f_stderr w' = f_stderr w.

(** [msecs] and [prevcnt] once a heading was read: the slots up to
    [prevcnt + 1] hold sections. *)
Definition session_sound (st : list (option path) * nat) : Prop :=
  length st.1 = 11%nat /\
  forall i, (i <= S st.2)%nat -> (i < 11)%nat -> exists p, st.1 !! i = Some (Some p).

(** The name of a row of the descriptor: its first cell with text. *)
Definition row_names (rows : list (list string)) : list string :=
  omap (fun r => snd <$> first_nonempty 0 r) rows.

(** A name that the store takes: not empty and without a slash (the
    character 47). *)
Fixpoint no_slash (s : string) : bool :=
  match s with
  | EmptyString => true
  | String c s' => negb (Ascii.eqb c (Ascii.ascii_of_nat 47)) && no_slash s'
  end.

Definition valid_name (s : string) : bool :=
  negb (String.eqb s EmptyString) && no_slash s.

(** A descriptor on which the preconditions of the store hold whatever the
    sections are that its rows land in: the names of its rows are valid and
    pairwise distinct. *)
Definition distinct_names (rows : list (list string)) : bool :=
  bool_decide (NoDup (row_names rows)) && forallb valid_name (row_names rows).

(** A row [key, value, ...] of the descriptor, and the property it gives. *)
Definition flat_row (r : list string) : bool :=
  match r with
  | k :: _ :: _ => negb (String.eqb k EmptyString)
  | _ => false
  end.

Definition row_property (sec : path) (r : list string) : path * string * pyval :=
  (sec, default EmptyString (r !! 0%nat), VStr (default EmptyString (r !! 1%nat))).

(** A descriptor with two keys, a heading and a key below it; and one that
    starts with an indented key. *)
Definition sample_descriptor : list (list string) :=
  [["experimenter"; "John Doe"];
   [EmptyString; EmptyString; "skipped"];
   ["subject"];
   [EmptyString; "age"; "54"]].

Definition orphan_descriptor : list (list string) :=
  [[EmptyString; "age"; "54"]; ["subject"]].





(** Pupil diameters of the left eye whose timestamps mix [int] and [float]:
    100.5, then 100 and 100.0, which are one timestamp. *)
Definition pd_record_at (ts : pyval) (pd : float) (eye : string) (s : Z) : record :=
  <["ts" := ts]> (<["pd" := VFloat pd]> (<["eye" := VStr eye]>
    (<["s" := VInt s]> ∅))).

Definition mixed_records : list record :=
  [pd_record_at (VFloat 100.5%float) 3.5%float "left" 0;
   pd_record_at (VInt 100) 3%float "left" 0;
   gy_record 150;
   pd_record_at (VFloat 100%float) 3.25%float "left" 1].

(** ** Properties of [determine_offsets] *)

Lemma where_from_occurrence (m : list bool) : forall (s k : nat),
  (k < count_where id m)%nat ->
  exists i, where_from s m !! k = Some (s + i)%nat /\ occurrence id m k i.
Proof.
  induction m as [|b m IH]; intros s k Hk; simpl in *; [lia|].
  destruct b; simpl in *.
  - destruct k as [|k].
    + exists 0%nat. rewrite Nat.add_0_r. repeat split; eauto.
    + destruct (IH (S s) k ltac:(lia)) as (i & Hi & (x & Hx & Hp) & Hc).
      exists (S i). replace (s + S i)%nat with (S s + i)%nat by lia.
      split; [done|]. split; [by eauto|]. simpl. by rewrite Hc.
  - destruct (IH (S s) k Hk) as (i & Hi & (x & Hx & Hp) & Hc).
    exists (S i). replace (s + S i)%nat with (S s + i)%nat by lia.
    split; [done|]. split; [by eauto|]. by simpl.
Qed.

Lemma count_where_map {A B} (f : A -> B) (p : B -> bool) (l : list A) :
  count_where p (map f l) = count_where (fun x => p (f x)) l.
Proof. induction l as [|x l IH]; simpl; [done|]. by rewrite IH. Qed.

Lemma occurrence_map {A} (p : A -> bool) (l : list A) (k i : nat) :
  occurrence id (map p l) k i -> occurrence p l k i.
Proof.
  intros [(b & Hb & Hid) Hc]. split.
  - rewrite list_lookup_fmap in Hb. destruct (l !! i) as [x|]; [|done].
    exists x. split; [done|]. by simplify_eq/=.
  - rewrite <- Hc. change (map p l) with (p <$> l). rewrite <- fmap_take.
    symmetry. apply (count_where_map p id).
Qed.

Lemma trigger_on_erg_rising (trigger : list float) :
  trigger_on_erg trigger = map rising_sync (np_diff trigger).
Proof.
  unfold trigger_on_erg, np_logical_and.
  induction (np_diff trigger) as [|d l IH]; simpl; [done|].
  by rewrite IH.
Qed.

Lemma np_diff_length (a : list float) : length (np_diff a) = pred (length a).
Proof.
  unfold np_diff. rewrite length_zip_with. destruct a as [|x a]; [done|].
  cbn [tail length]. lia.
Qed.

Lemma occurrence_lt {A} (p : A -> bool) (l : list A) (k i : nat) :
  occurrence p l k i -> (i < length l)%nat.
Proof. intros [(x & Hx & _) _]. by eapply lookup_lt_Some. Qed.

(** The exceptions of line 184: a record is a [dict], and a [dict] has no [+]. *)
Lemma py_add_dict (d : record) (v : pyval) : py_add (VDict d) v = Raise TypeError.
Proof. by destruct v. Qed.

Lemma determine_offsets_raises (time trigger : list float) (tobii_data : tobii_input) :
  exists e, determine_offsets time trigger tobii_data = Raise e.
Proof.
  unfold determine_offsets, mbind, result_bind.
  destruct (sync_trigger_tobii tobii_data) as [tobii|e]; [|by eauto].
  destruct (sync_trigger_eeg time trigger) as [eeg|e]; [|by eauto].
  destruct (getitem tobii 0) as [first|e]; [|by eauto].
  rewrite py_add_dict. eauto.
Qed.

(** C1, as the code has it: when the trigger has at least four rising steps
    of more than 1 and less than 5, line 182 yields [time[i]] for the position
    [i] of the fourth such step in [np.diff(trigger)].  Falling steps of the
    same magnitude are not counted. *)
Theorem sync_trigger_eeg_fourth_rising_step (time trigger : list float) :
  length time = length trigger ->
  (4 <= count_where rising_sync (np_diff trigger))%nat ->
  exists i t,
    occurrence rising_sync (np_diff trigger) 3 i /\
    time !! i = Some t /\
    sync_trigger_eeg time trigger = Ok t.
Proof.
  intros Hlen Hcnt.
  destruct (where_from_occurrence (map rising_sync (np_diff trigger)) 0 3)
    as (i & Hi & Hocc).
  { rewrite (count_where_map rising_sync id). exact Hcnt. }
  apply occurrence_map in Hocc.
  pose proof (occurrence_lt _ _ _ _ Hocc) as Hlt.
  rewrite np_diff_length in Hlt.
  destruct (lookup_lt_is_Some_2 time i) as [t Ht]; [lia|].
  exists i, t. split; [done|]. split; [done|].
  unfold sync_trigger_eeg, np_where, getitem.
  rewrite trigger_on_erg_rising, Hi. simpl. by rewrite Ht.
Qed.

(** The pulsing trigger has four rising steps. *)
Lemma sync_trigger_eeg_fourth_rising_step_witness :
  exists i t,
    occurrence rising_sync (np_diff pulses_trigger) 3 i /\
    pulses_time !! i = Some t /\
    sync_trigger_eeg pulses_time pulses_trigger = Ok t.
Proof.
  apply (sync_trigger_eeg_fourth_rising_step pulses_time pulses_trigger).
  - reflexivity.
  - vm_compute. lia.
Defined.

(** C1 as stated fails: on a trigger pulsing 3,0,3,0,... the fourth step of
    magnitude between 1 and 5 is at position 3, yet the offset computed is
    [time[7]], the fourth rising step. *)
Lemma sync_trigger_eeg_not_fourth_magnitude_step :
  (4 <= count_where magnitude_sync (np_diff pulses_trigger))%nat /\
  occurrence magnitude_sync (np_diff pulses_trigger) 3 3 /\
  pulses_time !! 3%nat = Some 3%float /\
  sync_trigger_eeg pulses_time pulses_trigger = Ok 7%float /\
  sync_trigger_eeg pulses_time pulses_trigger <> Ok 3%float /\
  forall tobii_data secondary,
    determine_offsets pulses_time pulses_trigger tobii_data
    <> Ok (VFloat 3%float, secondary).
Proof.
  split; [vm_compute; lia|].
  split; [split; [exists 3%float; by vm_compute | by vm_compute]|].
  split; [by vm_compute|].
  assert (Heeg : sync_trigger_eeg pulses_time pulses_trigger = Ok 7%float)
    by (by vm_compute).
  split; [done|]. split.
  - rewrite Heeg. by intros [= Hf].
  - intros tobii_data secondary Hd.
    destruct (determine_offsets_raises pulses_time pulses_trigger tobii_data)
      as [e He].
    congruence.
Qed.

(** C2, at a failing input: with one outgoing record of timestamp 100 the
    claim expects the secondary offset 100 + 10*10^6; line 184 adds the
    integer to the record itself and raises [TypeError]. *)
Theorem determine_offsets_outgoing_record_raises :
  sync_trigger_tobii (TobiiRecords [outgoing_record]) = Ok [outgoing_record] /\
  outgoing_record !! "ts" = Some (VInt 100) /\
  sync_trigger_eeg pulses_time pulses_trigger = Ok 7%float /\
  determine_offsets pulses_time pulses_trigger (TobiiRecords [outgoing_record])
  = Raise TypeError.
Proof. repeat split; by vm_compute. Qed.

(** ** Properties of [save_events]: edges and their classes *)

Lemma where_from_elem (m : list bool) : forall (s j : nat),
  j ∈ where_from s m <-> exists i, j = (s + i)%nat /\ m !! i = Some true.
Proof.
  induction m as [|b m IH]; intros s j; simpl.
  - split; [by intros ?%elem_of_nil | by intros (i & _ & ?)].
  - assert (Htail : j ∈ where_from (S s) m <->
                    exists i, j = (s + S i)%nat /\ m !! i = Some true).
    { rewrite IH. split; intros (i & -> & Hi); exists i; split; [lia|done|lia|done]. }
    destruct b.
    + rewrite elem_of_cons, Htail. split.
      * intros [->|(i & -> & Hi)]; [exists 0%nat; split; [lia|done]|].
        exists (S i). by split.
      * intros ([|i] & -> & Hi); [left; lia|]. right. exists i. by split.
    + rewrite Htail. split.
      * intros (i & -> & Hi). exists (S i). by split.
      * intros ([|i] & -> & Hi); [done|]. exists i. by split.
Qed.

Lemma where_from_sorted (m : list bool) : forall s : nat,
  StronglySorted lt (where_from s m).
Proof.
  induction m as [|b m IH]; intros s; simpl; [constructor|].
  destruct b; [|apply IH].
  constructor; [apply IH|].
  apply Forall_forall. intros j Hj.
  apply where_from_elem in Hj as (i & -> & _). lia.
Qed.

Lemma indices_spec (trigger : list float) (i : nat) :
  i ∈ indices trigger <->
  exists d, np_diff trigger !! i = Some d /\ PrimFloat.eqb d 0 = false.
Proof.
  unfold indices, np_nonzero, np_where. rewrite where_from_elem. split.
  - intros (k & -> & Hk). simpl. change (map ?f ?l) with (f <$> l) in Hk.
    rewrite list_lookup_fmap in Hk.
    destruct (np_diff trigger !! k) as [d|]; [|done].
    exists d. split; [done|]. simpl in Hk. by destruct (PrimFloat.eqb d 0).
  - intros (d & Hd & Hz). exists i. split; [done|].
    change (map ?f ?l) with (f <$> l). by rewrite list_lookup_fmap, Hd; simpl; rewrite Hz.
Qed.

Lemma indices_lt (trigger : list float) (i : nat) :
  i ∈ indices trigger -> (i < length trigger)%nat.
Proof.
  intros (d & Hd%lookup_lt_Some & _)%indices_spec.
  rewrite np_diff_length in Hd. lia.
Qed.

Lemma getitem_Some {A} (l : list A) (i : nat) (x : A) :
  l !! i = Some x -> getitem l i = Ok x.
Proof. unfold getitem. by intros ->. Qed.

Lemma np_take_ok (a : list float) (idx : list nat) :
  (forall i, i ∈ idx -> (i < length a)%nat) ->
  exists r, np_take a idx = Ok r /\ Forall2 (fun i s => a !! i = Some s) idx r.
Proof.
  unfold np_take. induction idx as [|i idx IH]; intros Hlt; simpl.
  - exists []. by split.
  - destruct (lookup_lt_is_Some_2 a i) as [s Hs]; [apply Hlt; left|].
    destruct IH as (r & Hr & Hall); [intros j Hj; apply Hlt; by right|].
    exists (s :: r). rewrite (getitem_Some _ _ _ Hs). simpl. rewrite Hr. simpl.
    split; [done|]. by constructor.
Qed.

Lemma states_ok (trigger : list float) :
  exists sts, states trigger = Ok sts /\
              Forall2 (fun i s => trigger !! i = Some s) (indices trigger) sts.
Proof. apply np_take_ok. intros i. apply indices_lt. Qed.

Lemma np_compress_markers (trigger : list float) (a b : float)
    (idx : list nat) (sts : list float) :
  Forall2 (fun i s => trigger !! i = Some s) idx sts ->
  np_compress (map (level_in a b) sts) (map event_time idx)
  = markers (fun i => trigger !! i) event_time a b idx.
Proof.
  induction 1 as [|i s idx sts Hs _ IH]; [done|].
  unfold markers in *. simpl. rewrite Hs. simpl.
  destruct (level_in a b s); by rewrite IH.
Qed.

(** ** Running the store operations *)

Lemma alter_snoc {A} (f : A -> A) (l : list A) (x : A) :
  alter f (length l) (l ++ [x]) = l ++ [f x].
Proof.
  replace (length l) with (length l + 0)%nat by lia.
  by rewrite alter_app_r.
Qed.

Lemma lookup_snoc {A} (l : list A) (x : A) : (l ++ [x]) !! length l = Some x.
Proof. by apply list_lookup_middle. Qed.

Lemma alter_snoc_S {A} (f : A -> A) (l : list A) (x y : A) :
  alter f (S (length l)) ((l ++ [x]) ++ [y]) = (l ++ [x]) ++ [f y].
Proof.
  replace (S (length l)) with (length (l ++ [x])); [apply alter_snoc|].
  rewrite length_app. simpl. lia.
Qed.

Lemma alter_snoc_0 {A} (f : A -> A) (l : list A) (x y : A) :
  alter f (length l) ((l ++ [x]) ++ [y]) = (l ++ [f x]) ++ [y].
Proof.
  rewrite alter_app_l by (rewrite length_app; simpl; lia).
  by rewrite alter_snoc.
Qed.

Lemma length_snoc {A} (l : list A) (x : A) : length (l ++ [x]) = S (length l).
Proof. rewrite length_app. simpl. lia. Qed.

Lemma bind_run {A B} (m : M A) (k : A -> M B) (w w1 : nixfile) (a : A) :
  m w = Ok (a, w1) -> (m ≫= k) w = k a w1.
Proof. unfold mbind, M_bind. by intros ->. Qed.

Lemma bind_raise {A B} (m : M A) (k : A -> M B) (w : nixfile) (e : exn) :
  m w = Raise e -> (m ≫= k) w = Raise e.
Proof. unfold mbind, M_bind. by intros ->. Qed.

Lemma bind_ok {A B} (m : M A) (k : A -> M B) (w w' : nixfile) (b : B) :
  (m ≫= k) w = Ok (b, w') ->
  exists a w1, m w = Ok (a, w1) /\ k a w1 = Ok (b, w').
Proof.
  unfold mbind, M_bind. destruct (m w) as [[a w1]|e]; [|done]. eauto.
Qed.

Lemma add_references_nil (x : MultiTag) : add_references [] x = x.
Proof. destruct x. unfold add_references, mt_with_references. simpl. by rewrite app_nil_r. Qed.

Lemma add_references_cons (da : nat) (das : list nat) (x : MultiTag) :
  add_references das (add_references [da] x) = add_references (da :: das) x.
Proof.
  destruct x. unfold add_references, mt_with_references. simpl.
  by rewrite <- app_assoc.
Qed.

Lemma apply_multi_tags_run (what : string) (es ce da : nat) (w : nixfile) :
  exists w',
    apply_multi_tags what es ce da w = Ok (tt, w') /\
    f_data_arrays w' = f_data_arrays w /\
    f_groups w' = f_groups w /\
    f_multi_tags w'
    = alter (add_references [da]) ce (alter (add_references [da]) es (f_multi_tags w)).
Proof. eexists. split; [reflexivity|]. by cbn. Qed.

Lemma apply_multi_tags_loop (what : string) (es ce : nat) (das : list nat) :
  forall w, es <> ce ->
  exists w',
    for_each das (apply_multi_tags what es ce) w = Ok (tt, w') /\
    f_data_arrays w' = f_data_arrays w /\
    f_groups w' = f_groups w /\
    f_multi_tags w'
    = alter (add_references das) ce (alter (add_references das) es (f_multi_tags w)).
Proof.
  induction das as [|da das IH]; intros w Hne.
  - exists w. split; [done|]. split; [done|]. split; [done|].
    by rewrite !(list_alter_id _ _ _ add_references_nil).
  - destruct (apply_multi_tags_run what es ce da w) as (w1 & Hrun & Ha & Hg & Hm).
    destruct (IH w1 Hne) as (w' & Hloop & Ha' & Hg' & Hm').
    exists w'. simpl. rewrite (bind_run _ _ _ _ _ Hrun).
    split; [done|]. split; [congruence|]. split; [congruence|].
    rewrite Hm', Hm.
    rewrite (list_alter_alter_ne _ _ _ es ce) by done.
    rewrite !list_alter_alter_eq.
    apply list_alter_ext; [intros x _; apply add_references_cons|].
    apply list_alter_ext; [intros x _; apply add_references_cons|done].
Qed.

Ltac simpl_state :=
  cbn [f_block f_data_arrays f_groups f_multi_tags f_tags f_sources f_sections
       f_properties f_block_metadata f_stdout f_stderr
       with_block with_data_arrays with_groups with_multi_tags with_tags
       with_sources with_sections with_properties with_block_metadata
       with_stdout with_stderr fst snd];
  rewrite ?alter_snoc, ?lookup_snoc;
  cbn [from_option
       da_name da_type da_data da_label da_unit da_description da_dims da_metadata
       da_with_label da_with_unit da_with_description da_with_dims da_with_metadata
       dim_kind_of dim_unit dim_label dim_labels
       dim_with_unit dim_with_label dim_with_labels new_dim
       mt_name mt_type mt_positions mt_extents mt_references
       mt_with_extents mt_with_references
       g_name g_type g_data_arrays g_sources g_with_data_arrays g_with_sources
       app].

Ltac step := erewrite bind_run by reflexivity; simpl_state.

Lemma save_events_run (trigger : list float) (ge gt : nat) (w : nixfile) :
  exists sts w',
    states trigger = Ok sts /\
    save_events trigger ge gt w = Ok (tt, w') /\
    f_data_arrays w'
    = f_data_arrays w ++
      [event_array "corner_times" "nix.timestamps"
         (NpArray (corners sts (times trigger)));
       event_array "experiment times" "nix.timestamps"
         (NpArray (exp_start sts (times trigger)));
       event_array "experiment durations" "nix.extents"
         (extents (exp_start sts (times trigger)))] /\
    f_groups w' = f_groups w /\
    f_multi_tags w'
    = f_multi_tags w ++
      [ {| mt_name := "corners"; mt_type := "nix.eeg.event";
           mt_positions := length (f_data_arrays w); mt_extents := None;
           mt_references := members ge w ++ members gt w |};
        {| mt_name := "experiment starts"; mt_type := "nix.eeg.event";
           mt_positions := S (length (f_data_arrays w));
           mt_extents := Some (S (S (length (f_data_arrays w))));
           mt_references := members ge w ++ members gt w |} ].
Proof.
  destruct (states_ok trigger) as (sts & Hsts & _).
  exists sts. unfold save_events. rewrite Hsts.
  step.
  set (es := exp_start sts (times trigger)).
  set (cs := corners sts (times trigger)).
  set (warn := if (length es <? 1)%nat then _ else _).
  assert (Hwarn : exists w0, warn w = Ok (tt, w0) /\
            f_data_arrays w0 = f_data_arrays w /\ f_groups w0 = f_groups w /\
            f_multi_tags w0 = f_multi_tags w).
  { subst warn. destruct (length es <? 1)%nat; eexists; (split; [reflexivity|done]). }
  destruct Hwarn as (w0 & Hw0 & Ha0 & Hg0 & Hm0).
  rewrite (bind_run _ _ _ _ _ Hw0).
  do 15 step.
  erewrite bind_run by reflexivity.
  match goal with
  | |- context [(for_each ?das (apply_multi_tags ?what ?e ?c) ≫= ?k) ?W] =>
      destruct (apply_multi_tags_loop what e c das W) as (w1 & Hw1 & Ha1 & Hg1 & Hm1);
        [rewrite ?length_snoc; lia|]
  end.
  rewrite (bind_run _ _ _ _ _ Hw1).
  erewrite bind_run by reflexivity.
  match goal with
  | |- context [for_each ?das (apply_multi_tags ?what ?e ?c) ?W] =>
      destruct (apply_multi_tags_loop what e c das W) as (w2 & Hw2 & Ha2 & Hg2 & Hm2);
        [rewrite ?length_snoc; lia|]
  end.
  exists w2. split; [done|]. split; [exact Hw2|].
  clear Hw1 Hw2.
  rewrite Ha2, Hg2, Hm2, Ha1, Hg1, Hm1. simpl_state.
  rewrite ?length_snoc, Ha0, Hg0, Hm0. fold (members ge w) (members gt w).
  split; [by rewrite <- !app_assoc|]. split; [done|].
  rewrite alter_snoc_0, alter_snoc_S, alter_snoc_0, <- !app_assoc. simpl.
  unfold add_references, mt_with_references, mt_with_extents. simpl.
  reflexivity.
Qed.

(** ** Properties of [save_events]: what it stores *)

(** C4, as the code has it: the transition positions are the positions of
    the nonzero entries of [np.diff(trigger)], in increasing order; the
    position [i] gets the instant [i/512]; it is classified by [trigger[i]],
    the level that the trigger leaves: 8 or 10 gives a corner marker, 4 or 6
    an experiment-start marker.  [save_events] stores the two lists of
    markers as the positions of its two multi-tags. *)
Theorem save_events_classifies_by_level_left (trigger : list float) :
  exists sts,
    states trigger = Ok sts /\
    (forall (ge gt : nat) (w : nixfile),
       exists w',
         save_events trigger ge gt w = Ok (tt, w') /\
         da_data <$> f_data_arrays w' !! length (f_data_arrays w)
         = Some (NpArray (corners sts (times trigger))) /\
         da_data <$> f_data_arrays w' !! S (length (f_data_arrays w))
         = Some (NpArray (exp_start sts (times trigger)))) /\
    (forall i, i ∈ indices trigger <->
       exists d, np_diff trigger !! i = Some d /\ PrimFloat.eqb d 0 = false) /\
    StronglySorted lt (indices trigger) /\
    times trigger = map event_time (indices trigger) /\
    corners sts (times trigger)
    = markers (fun i => trigger !! i) event_time 8 10 (indices trigger) /\
    exp_start sts (times trigger)
    = markers (fun i => trigger !! i) event_time 4 6 (indices trigger).
Proof.
  destruct (states_ok trigger) as (sts & Hsts & Hall).
  exists sts. split; [done|]. split.
  { intros ge gt w.
    destruct (save_events_run trigger ge gt w) as (sts' & w' & Hsts' & Hrun & Ha & _).
    assert (sts' = sts) as -> by congruence.
    exists w'. split; [done|]. rewrite Ha. split.
    - rewrite lookup_app_r by lia. by rewrite Nat.sub_diag.
    - rewrite lookup_app_r by lia.
      by replace (S (length (f_data_arrays w)) - length (f_data_arrays w))%nat
        with 1%nat by lia. }
  split; [apply indices_spec|].
  split; [apply where_from_sorted|]. split; [done|].
  split; apply (np_compress_markers trigger _ _ _ _ Hall).
Qed.

(** C4 as stated fails on the trigger 0,0,8,8,0,0,4,4,0 at the nominal rate
    512: classified by the level after the transition, the corner marker is
    at position 1 and the experiment start at position 5; the code reads the
    levels 0,8,0,4 before the transitions and puts the markers at positions
    3 and 7. *)
Lemma save_events_not_by_level_reached :
  indices example_trigger = [1; 3; 5; 7]%nat /\
  states example_trigger = Ok [0%float; 8%float; 0%float; 4%float] /\
  markers (fun i => example_trigger !! S i) event_time 8 10 (indices example_trigger)
  = [event_time 1] /\
  markers (fun i => example_trigger !! S i) event_time 4 6 (indices example_trigger)
  = [event_time 5] /\
  corners [0%float; 8%float; 0%float; 4%float] (times example_trigger)
  = [event_time 3] /\
  exp_start [0%float; 8%float; 0%float; 4%float] (times example_trigger)
  = [event_time 7] /\
  event_time 3 <> event_time 1 /\
  event_time 7 <> event_time 5.
Proof.
  repeat split; by vm_compute.
Qed.

Lemma insert_last_replicate {A} (n : nat) (x y : A) :
  <[n := x]> (replicate (S n) y) = replicate n y ++ [x].
Proof. induction n as [|n IH]; [done|]. simpl in *. by rewrite IH. Qed.

(** C5: [save_events] stores [extents] of the experiment-start markers as
    the array of the extents of the experiment-start regions.  For a single
    marker this is the Python list [[100]], not a numpy array; for two or more
    it is an array of as many extents, each 1 except the last, which is 100. *)
Theorem save_events_extents (trigger : list float) (ge gt : nat) (w : nixfile) :
  exists sts w',
    states trigger = Ok sts /\
    save_events trigger ge gt w = Ok (tt, w') /\
    let es := exp_start sts (times trigger) in
    let n := length (f_data_arrays w) in
    da_data <$> f_data_arrays w' !! S (S n) = Some (extents es) /\
    mt_extents <$> f_multi_tags w' !! S (length (f_multi_tags w))
    = Some (Some (S (S n))) /\
    match es with
    | [] | [_] => extents es = PyList [VInt 100]
    | _ :: _ :: rest =>
        extents es = NpArray (replicate (S (length rest)) 1%float ++ [100%float])
    end.
Proof.
  destruct (save_events_run trigger ge gt w) as (sts & w' & Hsts & Hrun & Ha & _ & Hm).
  exists sts, w'. split; [done|]. split; [done|]. cbn zeta.
  rewrite Ha, Hm. split; [|split].
  - rewrite lookup_app_r by lia.
    by replace (S (S (length (f_data_arrays w))) - length (f_data_arrays w))%nat
      with 2%nat by lia.
  - rewrite lookup_app_r by lia.
    by replace (S (length (f_multi_tags w)) - length (f_multi_tags w))%nat
      with 1%nat by lia.
  - destruct (exp_start sts (times trigger)) as [|t1 [|t2 rest]]; [done|done|].
    unfold extents. rewrite length_replicate. cbn [length Nat.ltb Nat.leb pred].
    by rewrite insert_last_replicate.
Qed.

(** C9: the two multi-tags that [save_events] creates, the corner regions
    and the experiment-start regions, each hold a reference to every array of
    the EEG group followed by every array of the Tobii group. *)
Theorem save_events_references_every_array (trigger : list float) (ge gt : nat)
    (w : nixfile) :
  exists w' corner_events exp_starts,
    save_events trigger ge gt w = Ok (tt, w') /\
    f_multi_tags w' = f_multi_tags w ++ [corner_events; exp_starts] /\
    mt_name corner_events = "corners" /\
    mt_name exp_starts = "experiment starts" /\
    mt_references corner_events = members ge w' ++ members gt w' /\
    mt_references exp_starts = members ge w' ++ members gt w'.
Proof.
  destruct (save_events_run trigger ge gt w) as (sts & w' & _ & Hrun & _ & Hg & Hm).
  eexists w', _, _. split; [done|]. split; [exact Hm|].
  unfold members. rewrite Hg. done.
Qed.

(** ** Properties of [write_channel_data] *)

Section ChannelData.
Context `{PyLib}.

Lemma write_channel_run (g : nat) (hw : path) (data : list (list float))
    (time : list float) (offset : pyval) (dt : float) (use_range : bool)
    (ch : nat) (chdata : list float) (w : nixfile) :
  data !! ch = Some chdata ->
  exists w',
    write_channel g hw data time offset dt use_range ch w = Ok (tt, w') /\
    f_data_arrays w'
    = f_data_arrays w ++ [channel_array hw time offset dt use_range ch chdata] /\
    f_groups w' = alter (add_members [length (f_data_arrays w)]) g (f_groups w) /\
    f_stderr w' = f_stderr w.
Proof.
  intros Hch. unfold write_channel.
  rewrite (getitem_Some _ _ _ Hch). step.
  do 5 step.
  destruct use_range.
  - do 5 step. eexists. split; [reflexivity|]. simpl_state. done.
  - do 5 step. eexists. split; [reflexivity|]. simpl_state. done.
Qed.

Lemma add_members_cons (da : nat) (das : list nat) (x : Group) :
  add_members das (add_members [da] x) = add_members (da :: das) x.
Proof.
  destruct x. unfold add_members, g_with_data_arrays. simpl.
  by rewrite <- app_assoc.
Qed.

Lemma write_channel_loop (g : nat) (hw : path) (data : list (list float))
    (time : list float) (offset : pyval) (dt : float) (use_range : bool) :
  forall (n s : nat) (w : nixfile),
    (s + n <= length data)%nat ->
    exists w',
      for_each (seq s n) (write_channel g hw data time offset dt use_range) w
      = Ok (tt, w') /\
      f_data_arrays w'
      = f_data_arrays w ++
        map (fun ch => channel_array hw time offset dt use_range ch
                         (default [] (data !! ch))) (seq s n) /\
      f_groups w'
      = alter (add_members (seq (length (f_data_arrays w)) n)) g (f_groups w) /\
      f_stderr w' = f_stderr w.
Proof.
  induction n as [|n IH]; intros s w Hlen.
  - exists w. split; [done|]. simpl. rewrite app_nil_r. split; [done|].
    split; [|done]. symmetry. apply list_alter_id. intros [] .
    unfold add_members, g_with_data_arrays. simpl. by rewrite app_nil_r.
  - destruct (lookup_lt_is_Some_2 data s) as [chdata Hch]; [lia|].
    destruct (write_channel_run g hw data time offset dt use_range s chdata w Hch)
      as (w1 & Hrun & Ha & Hg & He).
    destruct (IH (S s) w1 ltac:(lia)) as (w' & Hloop & Ha' & Hg' & He').
    exists w'. cbn [seq for_each]. rewrite (bind_run _ _ _ _ _ Hrun).
    split; [done|]. rewrite Ha', Hg', He', Ha, Hg, He, length_snoc.
    split; [|split; [|done]].
    + cbn [map]. rewrite Hch. cbn [default]. by rewrite <- app_assoc.
    + rewrite list_alter_alter_eq. apply list_alter_ext; [|done].
      intros x _. apply add_members_cons.
Qed.

Lemma block_metadata_run (md : path) (w : nixfile) :
  f_block_metadata w = Some md -> block_metadata w = Ok (md, w).
Proof. unfold block_metadata. by intros ->. Qed.

Lemma write_eeg_hardware_metadata_run (group : nat) (md : path) (w : nixfile) :
  f_block_metadata w = Some md ->
  exists w',
    write_eeg_hardware_metadata group w
    = Ok ((md ++ ["hardware"]) ++ ["eeg system"], w') /\
    f_data_arrays w' = f_data_arrays w /\
    f_groups w'
    = alter (fun g => g_with_sources (g_sources g ++ [length (f_sources w)]) g)
        group (f_groups w) /\
    f_stderr w' = f_stderr w /\
    f_block_metadata w' = Some md.
Proof.
  intros Hmd. unfold write_eeg_hardware_metadata.
  do 2 step.
  erewrite bind_run by (apply block_metadata_run; simpl_state; exact Hmd).
  step.
  erewrite bind_run by (apply block_metadata_run; simpl_state; exact Hmd).
  eexists. split; [reflexivity|]. by simpl_state.
Qed.

(** C6: [write_channel_data] computes [dt], the mean of the consecutive time
    differences, and the drift [1/dt - sr] once, before the loop over the
    channels.  When the drift exceeds the single-precision epsilon it prints
    one warning and goes on, and every channel array gets a range dimension
    holding the time values; otherwise no warning is printed and every
    channel array gets a sampled dimension holding only [dt]. *)
Theorem write_channel_data_one_strategy (data : list (list float))
    (time : list float) (sr : float) (offset : pyval) (md : path) (w : nixfile) :
  f_block_metadata w = Some md ->
  let dt := np_mean (np_diff time) in
  let drift := PrimFloat.sub (PrimFloat.div 1 dt) sr in
  let use_range := PrimFloat.ltb float32_eps drift in
  exists w',
    write_channel_data data time sr offset w = Ok (length (f_groups w), w') /\
    f_stderr w' = f_stderr w ++ (if use_range then [range_warning] else []) /\
    f_data_arrays w'
    = f_data_arrays w ++
      map (fun ch => channel_array ((md ++ ["hardware"]) ++ ["eeg system"]) time offset dt
                       use_range ch (default [] (data !! ch)))
          (seq 0 (length data)) /\
    Forall (fun d => dim_kind_of <$> da_dims d
                     = [if use_range then RangeDim (NpArray time) else SampledDim dt])
           (drop (length (f_data_arrays w)) (f_data_arrays w')) /\
    members (length (f_groups w)) w'
    = seq (length (f_data_arrays w)) (length data).
Proof.
  intros Hmd dt drift use_range. unfold write_channel_data.
  step.
  match goal with
  | |- context [(write_eeg_hardware_metadata ?g ≫= ?k) ?W] =>
      destruct (write_eeg_hardware_metadata_run g md W Hmd)
        as (w1 & Hhw & Ha1 & Hg1 & He1 & Hmd1)
  end.
  rewrite (bind_run _ _ _ _ _ Hhw). clear Hhw.
  fold dt. fold drift. fold use_range.
  set (warn := if use_range then _ else _).
  assert (Hwarn : exists w2, warn w1 = Ok (tt, w2) /\
            f_data_arrays w2 = f_data_arrays w1 /\ f_groups w2 = f_groups w1 /\
            f_stderr w2 = f_stderr w1 ++ (if use_range then [range_warning] else [])).
  { subst warn. destruct use_range; eexists; (split; [reflexivity|]); simpl_state;
      by rewrite ?app_nil_r. }
  destruct Hwarn as (w2 & Hw2 & Ha2 & Hg2 & He2).
  rewrite (bind_run _ _ _ _ _ Hw2). clear Hw2.
  destruct (write_channel_loop (length (f_groups w)) ((md ++ ["hardware"]) ++ ["eeg system"])
              data time offset dt use_range (length data) 0 w2 ltac:(lia))
    as (w3 & Hloop & Ha3 & Hg3 & He3).
  rewrite (bind_run _ _ _ _ _ Hloop). clear Hloop.
  exists w3. split; [done|].
  revert Ha1 Hg1 He1 Hmd1. simpl_state. intros Ha1 Hg1 He1 Hmd1.
  rewrite He3, He2, He1. split; [done|].
  rewrite Ha3, Ha2, Ha1. split; [done|]. split.
  - rewrite drop_app_length. apply Forall_forall. intros d Hd.
    apply list_elem_of_fmap in Hd as (ch & -> & _). by destruct use_range.
  - unfold members. rewrite Hg3, Hg2, Hg1, !alter_snoc, lookup_snoc.
    by rewrite Ha2, Ha1.
Qed.

End ChannelData.

(** ** Properties of the Tobii property channels *)

Lemma lift_run {A} (r : result A) (a : A) (w : nixfile) :
  r = Ok a -> lift r w = Ok (a, w).
Proof. by intros ->. Qed.

Lemma lift_ok {A} (r : result A) (a : A) (w w' : nixfile) :
  lift r w = Ok (a, w') -> r = Ok a /\ w' = w.
Proof. unfold lift. destruct r; [|done]. by intros [= -> ->]. Qed.

(** *** [filter] and [sorted] *)

Lemma py_filter_char {A} (f : A -> result bool) (p : A -> bool) (l : list A) :
  (forall x, x ∈ l -> f x = Ok (p x)) ->
  py_filter f l = Ok (filter (fun x => p x) l).
Proof.
  induction l as [|x l IH]; intros Hf; [done|].
  simpl. rewrite (Hf x) by left. simpl.
  rewrite IH by (intros y Hy; apply Hf; by right). simpl.
  rewrite filter_cons. by destruct (p x).
Qed.

Lemma mapM_char {A B} (f : A -> result B) (g : A -> B) (l : list A) :
  (forall x, x ∈ l -> f x = Ok (g x)) -> mapM f l = Ok (g <$> l).
Proof.
  induction l as [|x l IH]; intros Hf; [done|].
  simpl. rewrite (Hf x) by left. simpl.
  by rewrite IH by (intros y Hy; apply Hf; by right).
Qed.

Lemma mapM_is_ok {A B} (f : A -> result B) (l : list A) :
  (forall x, x ∈ l -> is_ok (f x) = true) ->
  exists r, mapM f l = Ok r /\ Forall2 (fun x y => f x = Ok y) l r.
Proof.
  induction l as [|x l IH]; intros Hf.
  - exists []. by split.
  - destruct IH as (r & Hr & Hall); [intros y Hy; apply Hf; by right|].
    pose proof (Hf x ltac:(left)) as Hx.
    destruct (f x) as [y|] eqn:Hfx; [|done].
    exists (y :: r). simpl. rewrite Hfx. simpl. rewrite Hr. simpl.
    split; [done|]. by constructor.
Qed.

(** *** The order of numbers *)

Lemma digits2_size (m : positive) : digits2_pos m = Pos.size m.
Proof. induction m; simpl; congruence. Qed.

(** A valid finite binary64 [m * 2^e]: the exponent is at least -1074, the
    mantissa is below [2^53], and at least [2^52] unless the exponent is
    -1074. *)
Lemma bounded_spec (m : positive) (e : Z) :
  bounded prec emax m e = true ->
  -1074 <= e /\ Z.pos m < 2 ^ 53 /\ (-1074 < e -> 2 ^ 52 <= Z.pos m).
Proof.
  unfold bounded, canonical_mantissa, fexp, emin, prec, emax.
  intros [Hc _]%andb_prop. apply Z.eqb_eq in Hc. rewrite digits2_size in Hc.
  pose proof (Pos.size_gt m) as Hgt. pose proof (Pos.size_le m) as Hle.
  apply Pos2Z.pos_lt_pos in Hgt. apply Pos2Z.pos_le_pos in Hle.
  rewrite Pos2Z.inj_pow in Hgt, Hle. change (Z.pos 2) with 2 in *.
  rewrite Pos2Z.inj_xO in Hle.
  set (d := Z.pos (Pos.size m)) in *.
  assert (Hd : 0 < d) by (subst d; lia).
  split; [lia|]. split.
  - assert (d <= 53) by lia.
    assert (2 ^ d <= 2 ^ 53) by (apply Z.pow_le_mono_r; lia). lia.
  - intros He. assert (d = 53) as Hd53 by lia. rewrite Hd53 in Hle.
    change (2 ^ 53) with (2 * 2 ^ 52) in Hle. lia.
Qed.

Lemma finite_lt (m1 m2 : positive) (e1 e2 : Z) :
  bounded prec emax m1 e1 = true -> bounded prec emax m2 e2 = true ->
  e1 < e2 ->
  Z.pos m1 * 2 ^ (e1 + 1074) < Z.pos m2 * 2 ^ (e2 + 1074).
Proof.
  intros (H1 & Hm1 & _)%bounded_spec (H2 & _ & Hm2)%bounded_spec Hlt.
  specialize (Hm2 ltac:(lia)).
  replace (e2 + 1074) with ((e1 + 1074) + 1 + (e2 - e1 - 1)) by lia.
  rewrite (Z.pow_add_r 2 (e1 + 1074 + 1) (e2 - e1 - 1)) by lia.
  rewrite (Z.pow_add_r 2 (e1 + 1074) 1) by lia.
  assert (0 < 2 ^ (e1 + 1074)) by (apply Z.pow_pos_nonneg; lia).
  assert (1 <= 2 ^ (e2 - e1 - 1)).
  { change 1 with (2 ^ 0). apply Z.pow_le_mono_r; lia. }
  change (2 ^ 1) with 2. change (2 ^ 53) with (2 * 2 ^ 52) in Hm1.
  generalize dependent (2 ^ 52). intros c Hm1 Hm2.
  generalize dependent (2 ^ (e1 + 1074)). intros A HA.
  generalize dependent (2 ^ (e2 - e1 - 1)). intros B HB.
  assert (Z.pos m1 * A < 2 * c * A) by nia.
  assert (c * B <= Z.pos m2 * B) by nia.
  assert (c <= c * B) by nia.
  assert (2 * c * A <= 2 * (Z.pos m2 * B) * A) by nia.
  nia.
Qed.

Lemma finite_compare (m1 m2 : positive) (e1 e2 : Z) :
  bounded prec emax m1 e1 = true -> bounded prec emax m2 e2 = true ->
  match Z.compare e1 e2 with
  | Lt => Lt
  | Gt => Gt
  | Eq => Pos.compare_cont Eq m1 m2
  end
  = Z.compare (Z.pos m1 * 2 ^ (e1 + 1074)) (Z.pos m2 * 2 ^ (e2 + 1074)).
Proof.
  intros Hb1 Hb2. symmetry. destruct (Z.compare_spec e1 e2) as [->|Hlt|Hgt].
  - pose proof (bounded_spec _ _ Hb2) as (He & _).
    assert (0 < 2 ^ (e2 + 1074)) by (apply Z.pow_pos_nonneg; lia).
    change (Pos.compare_cont Eq m1 m2) with (Z.pos m1 ?= Z.pos m2).
    destruct (Z.compare_spec (Z.pos m1) (Z.pos m2)) as [Heq|Hl|Hg].
    + rewrite Heq. apply Z.compare_refl.
    + apply Z.compare_lt_iff. nia.
    + apply Z.compare_gt_iff. nia.
  - apply Z.compare_lt_iff. by apply finite_lt.
  - apply Z.compare_gt_iff. by apply finite_lt.
Qed.

Lemma rank_lt_compare (a b : Z * Z) :
  rank_lt a b
  = match (match Z.compare a.1 b.1 with
           | Eq => Z.compare a.2 b.2
           | c => c
           end) with
    | Lt => true
    | _ => false
    end.
Proof.
  unfold rank_lt.
  destruct (Z.compare_spec a.1 b.1) as [->|Hlt|Hgt].
  - rewrite Z.ltb_irrefl, Z.eqb_refl. simpl. unfold Z.ltb. reflexivity.
  - apply Z.ltb_lt in Hlt. rewrite Hlt. reflexivity.
  - assert ((a.1 <? b.1) = false) as -> by (apply Z.ltb_ge; lia).
    assert ((a.1 =? b.1) = false) as -> by (apply Z.eqb_neq; lia).
    reflexivity.
Qed.

(** The comparison of two valid binary64 values is the comparison of their
    ranks. *)
Lemma SFcompare_rank (x y : spec_float) :
  valid_binary x = true -> valid_binary y = true ->
  SFcompare x y
  = match sf_rank x, sf_rank y with
    | Some a, Some b =>
        Some (match Z.compare a.1 b.1 with
              | Eq => Z.compare a.2 b.2
              | c => c
              end)
    | _, _ => None
    end.
Proof.
  intros Hx Hy.
  destruct x as [sx|sx| |sx mx ex], y as [sy|sy| |sy my ey];
    try reflexivity;
    try (destruct sx; reflexivity); try (destruct sy; reflexivity);
    try (destruct sx, sy; reflexivity).
  - cbn [valid_binary] in Hy. pose proof (bounded_spec _ _ Hy) as (He & _).
    assert (0 < 2 ^ (ey + 1074)) by (apply Z.pow_pos_nonneg; lia).
    unfold SFcompare, sf_rank. cbn [fst snd].
    change (0 ?= 0) with Eq. cbv iota. f_equal. symmetry.
    destruct sy; [apply Z.compare_gt_iff|apply Z.compare_lt_iff]; nia.
  - cbn [valid_binary] in Hx. pose proof (bounded_spec _ _ Hx) as (He & _).
    assert (0 < 2 ^ (ex + 1074)) by (apply Z.pow_pos_nonneg; lia).
    unfold SFcompare, sf_rank. cbn [fst snd].
    change (0 ?= 0) with Eq. cbv iota. f_equal. symmetry.
    destruct sx; [apply Z.compare_lt_iff|apply Z.compare_gt_iff]; nia.
  - cbn [valid_binary] in Hx, Hy.
    pose proof (bounded_spec _ _ Hx) as (Hex & _).
    pose proof (bounded_spec _ _ Hy) as (Hey & _).
    assert (0 < 2 ^ (ex + 1074)) by (apply Z.pow_pos_nonneg; lia).
    assert (0 < 2 ^ (ey + 1074)) by (apply Z.pow_pos_nonneg; lia).
    unfold SFcompare, sf_rank. cbn [fst snd].
    change (0 ?= 0) with Eq. cbv iota. f_equal.
    destruct sx, sy.
    + pose proof (finite_compare mx my ex ey Hx Hy) as Hc.
      replace (Z.neg mx * 2 ^ (ex + 1074) ?= Z.neg my * 2 ^ (ey + 1074))
        with (Z.pos my * 2 ^ (ey + 1074) ?= Z.pos mx * 2 ^ (ex + 1074)).
      2: { replace (Z.neg mx * 2 ^ (ex + 1074))
             with (- (Z.pos mx * 2 ^ (ex + 1074))) by lia.
           replace (Z.neg my * 2 ^ (ey + 1074))
             with (- (Z.pos my * 2 ^ (ey + 1074))) by lia.
           symmetry. apply Z.compare_opp. }
      rewrite (Z.compare_antisym (Z.pos mx * _)), <- Hc.
      destruct (ex ?= ey); reflexivity.
    + symmetry. apply Z.compare_lt_iff. nia.
    + symmetry. apply Z.compare_gt_iff. nia.
    + by apply finite_compare.
Qed.

(** The primitive [<] of two [float]s is the order of their ranks: the
    order of their exact values, false on a NaN. *)
Lemma float_ltb_rank (f g : float) :
  PrimFloat.ltb f g = num_lt (NFloat f) (NFloat g).
Proof.
  rewrite ltb_spec. unfold SFltb, num_lt, num_rank.
  rewrite (SFcompare_rank _ _ (Prim2SF_valid f) (Prim2SF_valid g)).
  destruct (sf_rank (Prim2SF f)), (sf_rank (Prim2SF g)); try reflexivity.
  by rewrite rank_lt_compare.
Qed.

Lemma int_ltb_rank (x y : Z) : (x <? y) = num_lt (NInt x) (NInt y).
Proof.
  unfold num_lt, num_rank, rank_lt. cbn [fst snd].
  rewrite Z.ltb_irrefl, Z.eqb_refl. cbn [orb andb].
  assert (0 < 2 ^ 1074) by (by apply Z.pow_pos_nonneg).
  generalize dependent (2 ^ 1074). intros c Hc.
  destruct (Z.ltb_spec x y), (Z.ltb_spec (x * c) (y * c)); try done; nia.
Qed.

Lemma rank_lt_spec (a b : Z * Z) :
  rank_lt a b = true <-> a.1 < b.1 \/ (a.1 = b.1 /\ a.2 < b.2).
Proof.
  unfold rank_lt. rewrite orb_true_iff, andb_true_iff, !Z.ltb_lt, Z.eqb_eq. tauto.
Qed.

Lemma rank_lt_false (a b : Z * Z) :
  rank_lt a b = false <-> b.1 < a.1 \/ (b.1 = a.1 /\ b.2 <= a.2).
Proof.
  destruct (rank_lt a b) eqn:Hlt.
  - apply rank_lt_spec in Hlt. split; [done|lia].
  - split; [|done]. intros _.
    assert (Hn : ~ (a.1 < b.1 \/ (a.1 = b.1 /\ a.2 < b.2))).
    { intros Hc%rank_lt_spec. congruence. }
    lia.
Qed.

Lemma rank_same (a b : Z * Z) :
  rank_lt a b = false /\ rank_lt b a = false <-> a = b.
Proof.
  rewrite !rank_lt_false. destruct a as [a1 a2], b as [b1 b2]. cbn [fst snd].
  split; [intros [? ?]; f_equal; lia|intros [= -> ->]; lia].
Qed.

Section Sorted.
Context `{PyLib}.

(** On timestamps Python's [<] is the order of the ranks. *)
Lemma py_key_lt_rank (a b : pyval) :
  timestamp a = true -> timestamp b = true ->
  py_key_lt a b = rank_lt (key_rank a) (key_rank b).
Proof.
  unfold timestamp, py_key_lt, key_rank.
  destruct (as_number a) as [x|]; [|done]. destruct (as_number b) as [y|]; [|done].
  cbn [mbind option_bind]. intros Ha Hb.
  assert (Hlt : num_lt x y = rank_lt (default (0, 0) (num_rank x))
                                     (default (0, 0) (num_rank y))).
  { unfold num_lt. by destruct (num_rank x), (num_rank y). }
  destruct x as [x|f], y as [y|g]; try exact Hlt.
  - by rewrite int_ltb_rank.
  - by rewrite float_ltb_rank.
Qed.

Lemma same_ts_rank (k : pyval) (e : record) :
  timestamp k = true -> timestamp (ts_key e) = true ->
  same_ts k e <-> key_rank (ts_key e) = key_rank k.
Proof.
  intros Hk He. unfold same_ts.
  rewrite (py_key_lt_rank _ _ Hk He), (py_key_lt_rank _ _ He Hk).
  rewrite andb_True, !negb_True, !Is_true_false.
  rewrite <- (rank_same (key_rank (ts_key e)) (key_rank k)). tauto.
Qed.

Lemma insert_keyed_perm (x : pyval * record) (l : list (pyval * record)) :
  insert_keyed x l ≡ₚ x :: l.
Proof.
  induction l as [|y l IH]; [done|]. simpl.
  destruct (py_key_lt y.1 x.1); [|done].
  rewrite IH. apply Permutation_swap.
Qed.

Lemma py_key_lt_keyed (x y : pyval * record) :
  keyed_ok x -> keyed_ok y ->
  py_key_lt x.1 y.1 = rank_lt (key_rank (ts_key x.2)) (key_rank (ts_key y.2)).
Proof.
  intros [Hx Htx] [Hy Hty]. rewrite (py_key_lt_rank _ _ Htx Hty).
  by rewrite Hx, Hy.
Qed.

Lemma insert_keyed_sorted (x : pyval * record) (l : list (pyval * record)) :
  keyed_ok x -> Forall keyed_ok l ->
  StronglySorted
    (fun a b => rank_lt (key_rank (ts_key b.2)) (key_rank (ts_key a.2)) = false) l ->
  StronglySorted
    (fun a b => rank_lt (key_rank (ts_key b.2)) (key_rank (ts_key a.2)) = false)
    (insert_keyed x l).
Proof.
  intros Hx. induction l as [|y l IH]; intros Hl Hs; simpl.
  - by repeat constructor.
  - apply Forall_cons in Hl as [Hy Hl].
    apply StronglySorted_cons in Hs as [Hyl Hs].
    rewrite (py_key_lt_keyed y x Hy Hx).
    destruct (rank_lt (key_rank (ts_key y.2)) (key_rank (ts_key x.2))) eqn:Hlt.
    + apply StronglySorted_cons. split; [|by apply IH].
      rewrite insert_keyed_perm. constructor; [|done].
      apply rank_lt_spec in Hlt. apply rank_lt_false. lia.
    + apply StronglySorted_cons. split.
      * constructor; [done|]. eapply Forall_impl; [exact Hyl|].
        intros b Hb. simpl in *. apply rank_lt_false in Hlt, Hb.
        apply rank_lt_false. lia.
      * by apply StronglySorted_cons.
Qed.

Lemma insert_keyed_stable (q : Z * Z) (x : pyval * record)
    (l : list (pyval * record)) :
  keyed_ok x -> Forall keyed_ok l ->
  filter (fun y => key_rank (ts_key y.2) = q) (insert_keyed x l)
  = filter (fun y => key_rank (ts_key y.2) = q) (x :: l).
Proof.
  intros Hx. induction l as [|y l IH]; intros Hl; [done|]. simpl.
  apply Forall_cons in Hl as [Hy Hl].
  rewrite (py_key_lt_keyed y x Hy Hx).
  destruct (rank_lt (key_rank (ts_key y.2)) (key_rank (ts_key x.2))) eqn:Hlt; [|done].
  rewrite filter_cons, (IH Hl), !filter_cons.
  repeat case_decide; try done.
  apply rank_lt_spec in Hlt. exfalso. subst q.
  match goal with Heq : key_rank _ = key_rank _ |- _ => rewrite Heq in Hlt end.
  lia.
Qed.

Lemma sort_keyed_spec (l : list (pyval * record)) :
  Forall keyed_ok l ->
  foldr insert_keyed [] l ≡ₚ l /\
  StronglySorted
    (fun a b => rank_lt (key_rank (ts_key b.2)) (key_rank (ts_key a.2)) = false)
    (foldr insert_keyed [] l) /\
  forall q, filter (fun y => key_rank (ts_key y.2) = q) (foldr insert_keyed [] l)
            = filter (fun y => key_rank (ts_key y.2) = q) l.
Proof.
  induction l as [|x l IH]; intros Hl; simpl.
  - repeat split; constructor.
  - apply Forall_cons in Hl as [Hx Hl]. destruct (IH Hl) as (Hp & Hs & Hst).
    assert (Hk : Forall keyed_ok (foldr insert_keyed [] l)) by by rewrite Hp.
    split; [by rewrite insert_keyed_perm, Hp|].
    split; [by apply insert_keyed_sorted|].
    intros q. rewrite insert_keyed_stable by done.
    by rewrite !filter_cons, Hst.
Qed.

Lemma filter_snd (q : Z * Z) (l : list (pyval * record)) :
  filter (fun e => key_rank (ts_key e) = q) (l.*2)
  = (filter (fun y => key_rank (ts_key y.2) = q) l).*2.
Proof.
  induction l as [|y l IH]; [done|]. cbn [fmap list_fmap].
  rewrite !filter_cons, IH. by case_decide.
Qed.

Lemma filter_same_ts (k : pyval) (l : list record) :
  timestamp k = true -> Forall (fun e => timestamp (ts_key e) = true) l ->
  filter (fun e => same_ts k e) l
  = filter (fun e => key_rank (ts_key e) = key_rank k) l.
Proof.
  intros Hk. induction l as [|e l IH]; intros Hl; [done|].
  apply Forall_cons in Hl as [He Hl]. rewrite !filter_cons, (IH Hl).
  pose proof (same_ts_rank k e Hk He). repeat case_decide; tauto.
Qed.

Lemma sorted_by_rank (l : list record) :
  Forall (fun e => timestamp (ts_key e) = true) l ->
  StronglySorted
    (fun a b => rank_lt (key_rank (ts_key b)) (key_rank (ts_key a)) = false) l ->
  StronglySorted (fun a b => py_key_lt (ts_key b) (ts_key a) = false) l.
Proof.
  induction l as [|e l IH]; intros Hl Hs; [constructor|].
  apply Forall_cons in Hl as [He Hl]. apply StronglySorted_cons in Hs as [Hel Hs].
  apply StronglySorted_cons. split; [|by apply IH].
  rewrite Forall_forall in Hel, Hl. apply Forall_forall. intros b Hb.
  rewrite (py_key_lt_rank _ _ (Hl b Hb) He). by apply Hel.
Qed.

(** What [sorted] does to records whose ["ts"] are timestamps: a stable
    sort by Python's [<]. *)
Lemma py_sorted_spec (flt : list record) :
  (forall e, e ∈ flt -> is_Some (e !! "ts") /\ timestamp (ts_key e) = true) ->
  exists srt,
    py_sorted "ts" flt = Ok srt /\
    srt ≡ₚ flt /\
    StronglySorted (fun a b => py_key_lt (ts_key b) (ts_key a) = false) srt /\
    forall k, timestamp k = true ->
      filter (fun e => same_ts k e) srt = filter (fun e => same_ts k e) flt.
Proof.
  intros Hts. unfold py_sorted.
  rewrite (mapM_char _ (fun e => (ts_key e, e))); cycle 1.
  { intros e He. destruct (Hts e He) as [[v Hv] _]. unfold dict_getitem, ts_key.
    by rewrite Hv. }
  simpl. eexists. split; [reflexivity|].
  set (keyed := (fun e => (ts_key e, e)) <$> flt).
  assert (Hk : Forall keyed_ok keyed).
  { apply Forall_fmap, Forall_forall. intros e He. split; [done|]. by apply Hts. }
  assert (Hflt : keyed.*2 = flt).
  { subst keyed. rewrite <- list_fmap_compose. apply list_fmap_id. }
  destruct (sort_keyed_spec keyed Hk) as (Hp & Hs & Hst).
  assert (Hperm : (foldr insert_keyed [] keyed).*2 ≡ₚ flt) by by rewrite Hp, Hflt.
  assert (Hall : forall l, l ≡ₚ flt ->
            Forall (fun e => timestamp (ts_key e) = true) l).
  { intros l Hl. apply Forall_forall. intros e He. apply Hts. by rewrite <- Hl. }
  split; [done|]. split.
  - apply sorted_by_rank; [by apply Hall|].
    eapply (StronglySorted_fmap snd); [|exact Hs]. done.
  - intros k Hk'. rewrite !filter_same_ts by (done || by apply Hall).
    by rewrite filter_snd, Hst, <- filter_snd, Hflt.
Qed.

End Sorted.

Section PropertyChannel.
Context `{PyLib}.

Lemma write_tobii_property_run (c : channel) (tobii_data : tobii_input)
    (tobii_offset : pyval) (w : nixfile)
    (flt srt : list record) (samples : list (pyval * pyval)) :
  filtered c tobii_data = Ok flt ->
  py_sorted "ts" flt = Ok srt ->
  mapM (sample c tobii_offset) srt = Ok samples ->
  exists w',
    write_tobii_property c tobii_data tobii_offset w
    = Ok (length (f_data_arrays w), w') /\
    f_data_arrays w' = f_data_arrays w ++ [property_array c tobii_offset samples] /\
    f_groups w' = property_groups c samples (length (f_data_arrays w)) (f_groups w) /\
    f_multi_tags w' = f_multi_tags w /\
    f_stdout w'
    = f_stdout w ++
      (if (length (samples.*2) <? 1)%nat
       then ["INFO/TOBII: no '" +:+ c_prop c +:+ "' data found"] else []).
Proof.
  intros Hflt Hsrt Hsamples. unfold write_tobii_property.
  rewrite (bind_run _ _ _ _ _ (lift_run _ _ _ Hflt)).
  rewrite (bind_run _ _ _ _ _ (lift_run _ _ _ Hsrt)).
  rewrite (bind_run _ _ _ _ _ (lift_run _ _ _ Hsamples)).
  do 2 step. unfold property_array, property_groups.
  destruct (length (samples.*2) <? 1)%nat.
  - do 2 step. eexists. split; [reflexivity|]. simpl_state.
    by destruct (c_group c).
  - destruct (c_unit c) as [u|], (c_group c) as [g|]; do 8 step;
      (eexists; split; [reflexivity|]); simpl_state; by rewrite ?app_nil_r.
Qed.

Lemma write_tobii_property_ok (c : channel) (tobii_data : tobii_input)
    (tobii_offset : pyval) (w w' : nixfile) (da : nat) :
  write_tobii_property c tobii_data tobii_offset w = Ok (da, w') ->
  exists flt srt samples,
    filtered c tobii_data = Ok flt /\
    py_sorted "ts" flt = Ok srt /\
    mapM (sample c tobii_offset) srt = Ok samples.
Proof.
  unfold write_tobii_property. intros Hrun.
  apply bind_ok in Hrun as (flt & w1 & [Hflt ->]%lift_ok & Hrun).
  apply bind_ok in Hrun as (srt & w1 & [Hsrt ->]%lift_ok & Hrun).
  apply bind_ok in Hrun as (samples & w1 & [Hsamples ->]%lift_ok & Hrun).
  by exists flt, srt, samples.
Qed.

Lemma well_formed_all (c : channel) (tobii_offset : pyval) (rs : list record) :
  forallb (well_formed c tobii_offset) rs = true ->
  forall r, r ∈ rs -> well_formed c tobii_offset r = true.
Proof.
  intros Hall r Hr. apply list_elem_of_In in Hr.
  by apply (proj1 (forallb_forall _ _) Hall).
Qed.

Lemma filtered_well_formed (c : channel) (tobii_offset : pyval) (rs : list record) :
  forallb (well_formed c tobii_offset) rs = true ->
  filtered c (TobiiRecords rs) = Ok (filter (fun r => selects c r) rs).
Proof.
  intros Hwf. pose proof (well_formed_all _ _ _ Hwf) as Hall. clear Hwf.
  unfold filtered. cbn [py_iter mbind result_bind].
  rewrite (py_filter_char _ (fun x => dict_contains x (c_prop c))) by done.
  cbn [mbind result_bind]. unfold selects.
  destruct (c_eye c) as [eye|] eqn:Heye.
  - rewrite (py_filter_char _ (fun y => match y !! "eye" with
                                        | Some v => py_eq_str v eye
                                        | None => false
                                        end)).
    + f_equal. rewrite list_filter_filter. apply list_filter_iff.
      intros x. rewrite andb_True. tauto.
    + intros y [Hy Hin]%list_elem_of_filter.
      specialize (Hall y Hin). unfold well_formed in Hall. rewrite Heye in Hall.
      apply andb_prop in Hall as [Hall _].
      apply Is_true_true in Hy. rewrite Hy in Hall. simpl in Hall.
      unfold dict_contains in Hall. apply bool_decide_eq_true in Hall as [v Hv].
      unfold dict_getitem. by rewrite Hv.
  - f_equal. apply list_filter_iff. intros x. by rewrite andb_true_r.
Qed.

(** C7: for a stream of well-formed records of which the channel keeps at
    least one, [write_tobii_property] returns, and the array it creates has
    one sample per record that has the property (and the eye tag of an
    eye-specific channel).  The samples follow the records in ascending order
    of the raw timestamp: no record comes after one with a greater
    timestamp, and the records of one timestamp keep their order in the
    stream.  The tick of a sample is the raw timestamp minus the offset, and
    its row is the row built from the record.  The timestamps are numbers,
    [int] or [float], of any mixture; the order is Python's [<]. *)
Theorem write_tobii_property_samples (c : channel) (rs : list record)
    (tobii_offset : pyval) (w : nixfile) :
  forallb (well_formed c tobii_offset) rs = true ->
  filter (fun r => selects c r) rs <> [] ->
  exists w' tobii_pc_data samples da,
    write_tobii_property c (TobiiRecords rs) tobii_offset w
    = Ok (length (f_data_arrays w), w') /\
    f_data_arrays w' !! length (f_data_arrays w) = Some da /\
    da_data da = PyList (samples.*2) /\
    dim_kind_of <$> da_dims da = [RangeDim (PyList (samples.*1)); SetDim] /\
    length samples = length (filter (fun r => selects c r) rs) /\
    tobii_pc_data ≡ₚ filter (fun r => selects c r) rs /\
    StronglySorted (fun a b => py_key_lt (ts_key b) (ts_key a) = false)
      tobii_pc_data /\
    (forall k, timestamp k = true ->
       filter (fun e => same_ts k e) tobii_pc_data
       = filter (fun e => same_ts k e) (filter (fun r => selects c r) rs)) /\
    Forall2 (fun e s => py_sub (ts_key e) tobii_offset = Ok s.1 /\
                        exists row, c_row c e = Ok row /\ s.2 = VList row)
            tobii_pc_data samples.
Proof.
  intros Hwf Hne.
  pose proof (filtered_well_formed c tobii_offset rs Hwf) as Hflt.
  pose proof (well_formed_all _ _ _ Hwf) as Hall.
  set (flt := filter (fun r => selects c r) rs) in *.
  assert (Hsel : forall e, e ∈ flt ->
            (is_Some (e !! "ts") /\ timestamp (ts_key e) = true) /\
            is_ok (sample c tobii_offset e) = true).
  { intros e [He Hin]%list_elem_of_filter. specialize (Hall e Hin).
    unfold well_formed in Hall. apply andb_prop in Hall as [_ Hall].
    apply Is_true_true in He. rewrite He in Hall. simpl in Hall.
    apply andb_prop in Hall as [Hts Hok]. split; [|done]. split; [|done].
    unfold timestamp, ts_key in Hts. destruct (e !! "ts"); [by eexists|done]. }
  destruct (py_sorted_spec flt) as (srt & Hsrt & Hperm & Hsorted & Hstable).
  { intros e He. by apply Hsel. }
  destruct (mapM_is_ok (sample c tobii_offset) srt) as (samples & Hsamples & Hall2).
  { intros e He. apply Hsel. by rewrite <- Hperm. }
  destruct (write_tobii_property_run c _ tobii_offset w flt srt samples
              Hflt Hsrt Hsamples) as (w' & Hrun & Ha & _).
  assert (Hlen : length samples = length flt).
  { rewrite <- (Forall2_length _ _ _ Hall2). by rewrite Hperm. }
  assert (Hbranch : (length (samples.*2) <? 1)%nat = false).
  { rewrite length_fmap, Hlen. apply Nat.ltb_ge.
    destruct flt; [done|simpl; lia]. }
  exists w', srt, samples, (property_array c tobii_offset samples).
  split; [done|]. split; [by rewrite Ha, lookup_snoc|].
  unfold property_array. rewrite Hbranch. cbn [da_data da_dims].
  split; [done|]. split; [done|]. split; [done|]. split; [done|].
  split; [done|]. split; [done|].
  assert (Hts : Forall (fun e => is_Some (e !! "ts")) srt).
  { apply Forall_forall. intros e He. apply Hsel. by rewrite <- Hperm. }
  clear -Hts Hall2. induction Hall2 as [|e s srt samples Hs _ IH]; [constructor|].
  apply Forall_cons in Hts as [[v Hv] Hts]. constructor; [|by apply IH].
  unfold sample, dict_getitem in Hs. rewrite Hv in Hs. cbn [mbind result_bind] in Hs.
  unfold ts_key. rewrite Hv. cbn [default from_option id].
  destruct (py_sub v tobii_offset) as [t|]; [|done].
  cbn [mbind result_bind] in Hs.
  destruct (c_row c e) as [row|]; [|done].
  cbn [mbind result_bind] in Hs. injection Hs as <-. eauto.
Qed.

(** C8, as the code has it: when no record is kept, [write_tobii_property]
    raises nothing and creates an array with no sample and no range (time)
    dimension; it reports the missing property and appends one set
    dimension, which carries no labels.  The array joins no group. *)
Theorem write_tobii_property_empty (c : channel) (tobii_data : tobii_input)
    (tobii_offset : pyval) (w : nixfile) :
  filtered c tobii_data = Ok [] ->
  exists w' da,
    write_tobii_property c tobii_data tobii_offset w
    = Ok (length (f_data_arrays w), w') /\
    f_data_arrays w' = f_data_arrays w ++ [da] /\
    da_data da = PyList [] /\
    da_dims da = [ {| dim_kind_of := SetDim; dim_unit := None; dim_label := None;
                      dim_labels := [] |} ] /\
    f_groups w' = f_groups w /\
    f_stdout w' = f_stdout w ++ ["INFO/TOBII: no '" +:+ c_prop c +:+ "' data found"].
Proof.
  intros Hflt.
  destruct (write_tobii_property_run c tobii_data tobii_offset w [] [] []
              Hflt eq_refl eq_refl) as (w' & Hrun & Ha & Hg & _ & Hout).
  exists w', (property_array c tobii_offset []).
  split; [done|]. split; [done|]. split; [done|]. split; [done|].
  split; [|done]. rewrite Hg. unfold property_groups. by destruct (c_group c).
Qed.

Lemma mapM_length {A B} (f : A -> result B) (l : list A) (r : list B) :
  mapM f l = Ok r -> length r = length l.
Proof.
  revert r. induction l as [|x l IH]; intros r; simpl.
  - by intros [= <-].
  - destruct (f x) as [y|]; [|done]. simpl.
    destruct (mapM f l) as [k|]; [|done]. simpl. intros [= <-].
    simpl. f_equal. by apply IH.
Qed.

Lemma py_sorted_length (k : string) (l srt : list record) :
  py_sorted k l = Ok srt -> length srt = length l.
Proof.
  unfold py_sorted. destruct (mapM _ l) as [keyed|] eqn:Hk; [|done].
  simpl. intros [= <-]. rewrite length_fmap.
  rewrite <- (mapM_length _ _ _ Hk). clear Hk.
  induction keyed as [|x keyed IH]; [done|]. simpl.
  rewrite (Permutation_length (insert_keyed_perm _ _)). simpl. by rewrite IH.
Qed.

Lemma write_tobii_property_inv (c : channel) (tobii_data : tobii_input)
    (tobii_offset : pyval) (w w' : nixfile) (da : nat) :
  write_tobii_property c tobii_data tobii_offset w = Ok (da, w') ->
  exists flt samples,
    filtered c tobii_data = Ok flt /\
    length samples = length flt /\
    da = length (f_data_arrays w) /\
    f_data_arrays w' = f_data_arrays w ++ [property_array c tobii_offset samples] /\
    f_groups w' = property_groups c samples da (f_groups w) /\
    f_multi_tags w' = f_multi_tags w.
Proof.
  intros Hrun.
  destruct (write_tobii_property_ok _ _ _ _ _ _ Hrun)
    as (flt & srt & samples & Hflt & Hsrt & Hsamples).
  destruct (write_tobii_property_run c tobii_data tobii_offset w flt srt samples
              Hflt Hsrt Hsamples) as (w1 & Hrun1 & Ha & Hg & Hm & _).
  rewrite Hrun1 in Hrun. injection Hrun as <- <-.
  exists flt, samples. split; [done|]. split; [|done].
  rewrite (mapM_length _ _ _ Hsamples). by apply (py_sorted_length "ts").
Qed.

Lemma property_array_name (c : channel) (tobii_offset : pyval)
    (samples : list (pyval * pyval)) :
  da_name (property_array c tobii_offset samples) = c_name c.
Proof. unfold property_array. by destruct (_ <? _)%nat. Qed.

Lemma tobii_progress_length (w0 w : nixfile) (names : list string) (ms : list nat) :
  tobii_progress w0 names ms w ->
  length (f_data_arrays w) = (length (f_data_arrays w0) + length names)%nat.
Proof.
  intros (Hn & _). apply (f_equal length) in Hn.
  by rewrite length_app, !length_fmap in Hn.
Qed.

(** A writer that is handed the group. *)
Lemma shared_step (c : channel) (tobii_data : tobii_input) (tobii_offset : pyval)
    (w0 w w' : nixfile) (names : list string) (ms : list nat) (da : nat) :
  c_group c = Some (length (f_groups w0)) ->
  tobii_progress w0 names ms w ->
  write_tobii_property c tobii_data tobii_offset w = Ok (da, w') ->
  tobii_progress w0 (names ++ [c_name c])
    (ms ++ if is_empty_channel c tobii_data then []
           else [(length (f_data_arrays w0) + length names)%nat]) w'.
Proof.
  intros Hc Hinv Hrun.
  pose proof (tobii_progress_length _ _ _ _ Hinv) as Hlen.
  destruct Hinv as (Hn & (G & HG & Hms) & Hm).
  apply write_tobii_property_inv in Hrun
    as (flt & samples & Hflt & Hsl & -> & Ha & Hg & Hm').
  split; [|split].
  - by rewrite Ha, fmap_app, Hn, <- app_assoc; simpl; rewrite property_array_name.
  - rewrite Hg. unfold property_groups, is_empty_channel. rewrite Hc, Hflt, HG.
    rewrite length_fmap, Hsl.
    destruct flt as [|e flt]; simpl.
    + exists G. by rewrite app_nil_r.
    + rewrite alter_snoc. eexists. split; [done|]. simpl. by rewrite Hms, Hlen.
  - by rewrite Hm'.
Qed.

(** A writer that returns the array, and the append that follows it. *)
Lemma eye_step (c : channel) (tobii_data : tobii_input) (tobii_offset : pyval)
    (w0 w w' w'' : nixfile) (names : list string) (ms : list nat) (da : nat) :
  c_group c = None ->
  tobii_progress w0 names ms w ->
  write_tobii_property c tobii_data tobii_offset w = Ok (da, w') ->
  group_append (length (f_groups w0)) da w' = Ok (tt, w'') ->
  tobii_progress w0 (names ++ [c_name c])
    (ms ++ [(length (f_data_arrays w0) + length names)%nat]) w''.
Proof.
  intros Hc Hinv Hrun Happ.
  pose proof (tobii_progress_length _ _ _ _ Hinv) as Hlen.
  destruct Hinv as (Hn & (G & HG & Hms) & Hm).
  apply write_tobii_property_inv in Hrun
    as (flt & samples & Hflt & Hsl & -> & Ha & Hg & Hm').
  injection Happ as <-. unfold tobii_progress. simpl_state.
  unfold property_groups in Hg. rewrite Hc in Hg.
  split; [|split].
  - by rewrite Ha, fmap_app, Hn, <- app_assoc; simpl; rewrite property_array_name.
  - rewrite Hg, HG, alter_snoc. eexists. split; [done|]. simpl.
    by rewrite Hms, Hlen.
  - by rewrite Hm'.
Qed.

Lemma present_elem (tobii_data : tobii_input) (cs : list channel) :
  forall (i j : nat),
    j ∈ present tobii_data i cs ->
    exists k c, cs !! k = Some c /\ j = (i + k)%nat /\
                is_empty_channel c tobii_data = false.
Proof.
  induction cs as [|c cs IH]; intros i j; simpl; [by intros ?%elem_of_nil|].
  intros [Hj|Hj]%elem_of_app.
  - destruct (is_empty_channel c tobii_data) eqn:Hc; [by apply elem_of_nil in Hj|].
    apply list_elem_of_singleton in Hj as ->. exists 0%nat, c.
    split; [done|]. split; [lia|done].
  - destruct (IH _ _ Hj) as (k & c' & Hk & -> & Hc').
    exists (S k), c'. split; [done|]. split; [lia|done].
Qed.

Ltac eye_writer Hrun Hinv :=
  let da := fresh "da" in
  let wa := fresh "w" in
  let wb := fresh "w" in
  let H1 := fresh "H" in
  let H2 := fresh "H" in
  let Hnew := fresh "H" in
  apply bind_ok in Hrun as (da & wa & H1 & Hrun);
  apply bind_ok in Hrun as ([] & wb & H2 & Hrun);
  unfold write_tobii_pupil_center, write_tobii_pupil_diameter,
    write_tobii_gaze_dir in H1;
  pose proof (fun Hc => eye_step _ _ _ _ _ _ _ _ _ _ Hc Hinv H1 H2) as Hnew;
  specialize (Hnew eq_refl);
  clear Hinv H1 H2; rename Hnew into Hinv.

Ltac shared_writer Hrun Hinv :=
  let da := fresh "da" in
  let wa := fresh "w" in
  let wb := fresh "w" in
  let H1 := fresh "H" in
  let H2 := fresh "H" in
  let Hnew := fresh "H" in
  apply bind_ok in Hrun as ([] & wa & H1 & Hrun);
  unfold write_tobii_gaze_pos, write_tobii_gaze_pos_3d, write_tobii_gyroscope,
    write_tobii_accelerometer, write_tobii_pipe_ts, write_tobii_video_ts,
    write_tobii_eye_video_ts, write_tobii_sync_port in H1;
  apply bind_ok in H1 as (da & wb & H1 & H2);
  injection H2 as <-;
  pose proof (fun Hc => shared_step _ _ _ _ _ _ _ _ _ Hc Hinv H1) as Hnew;
  specialize (Hnew eq_refl);
  clear Hinv H1; rename Hnew into Hinv.

Lemma write_tobii_data_progress (tobii_data : tobii_input) (tobii_offset : pyval)
    (w w1 : nixfile) (g : nat) :
  write_tobii_data tobii_data tobii_offset w = Ok (g, w1) ->
  g = length (f_groups w) /\
  tobii_progress w ((c_name <$> eye_channels) ++ (c_name <$> shared_channels g))
    (seq (length (f_data_arrays w)) 6
     ++ present tobii_data (length (f_data_arrays w) + 6) (shared_channels g)) w1.
Proof.
  unfold write_tobii_data. intros Hrun.
  apply bind_ok in Hrun as (g' & w0 & Hcreate & Hrun).
  injection Hcreate as <- <-.
  assert (Hinv : tobii_progress w [] []
            (with_groups (f_groups w ++ [ {| g_name := "tobii data";
               g_type := "nix.tobii"; g_data_arrays := []; g_sources := [] |} ]) w)).
  { split; [by rewrite app_nil_r|]. split; [|done]. eexists. by split. }
  do 6 eye_writer Hrun Hinv.
  do 8 shared_writer Hrun Hinv.
  injection Hrun as <- <-. split; [done|].
  revert Hinv. cbn [app length c_name pupil_center pupil_diameter gaze_dir gaze_pos
    gaze_pos_3d gyroscope accelerometer pipe_ts video_ts eye_video_ts sync_port
    present shared_channels eye_channels fmap list_fmap seq].
  rewrite <- !app_assoc. cbn [app].
  replace (length (f_data_arrays w) + 0)%nat with (length (f_data_arrays w)) by lia.
  repeat match goal with
  | |- context [(length (f_data_arrays w) + S ?k)%nat] =>
      replace (length (f_data_arrays w) + S k)%nat
        with (S (length (f_data_arrays w) + k)) by lia
  end.
  replace (length (f_data_arrays w) + 0)%nat with (length (f_data_arrays w)) by lia.
  intros Hinv. rewrite app_nil_r. exact Hinv.
Qed.

(** C10: of the fourteen arrays that [write_tobii_data] creates, the six
    eye-specific ones are members of the Tobii group whatever they hold; each
    of the other eight is a member only if its channel kept a record.  The
    multi-tags of [save_events] reference the members of the two groups, so an
    empty array of those eight kinds is referenced by neither of them. *)
Theorem write_tobii_data_membership (tobii_data : tobii_input)
    (tobii_offset : pyval) (w w1 : nixfile) (g : nat) :
  write_tobii_data tobii_data tobii_offset w = Ok (g, w1) ->
  let n := length (f_data_arrays w) in
  g = length (f_groups w) /\
  da_name <$> drop n (f_data_arrays w1)
  = (c_name <$> eye_channels) ++ (c_name <$> shared_channels g) /\
  members g w1 = seq n 6 ++ present tobii_data (n + 6) (shared_channels g) /\
  forall (trigger : list float) (ge : nat),
    Forall (fun da => (da < n)%nat) (members ge w1) ->
    exists w2 corner_events exp_starts,
      save_events trigger ge g w1 = Ok (tt, w2) /\
      f_multi_tags w2 = f_multi_tags w1 ++ [corner_events; exp_starts] /\
      forall (k : nat) (c : channel),
        shared_channels g !! k = Some c ->
        is_empty_channel c tobii_data = true ->
        ((n + 6 + k)%nat ∉ mt_references corner_events) /\
        ((n + 6 + k)%nat ∉ mt_references exp_starts).
Proof.
  intros Hrun n.
  destruct (write_tobii_data_progress _ _ _ _ _ Hrun)
    as (Hg & Hn & (G & HG & Hms) & Hm).
  assert (Hmem : members g w1
                 = seq n 6 ++ present tobii_data (n + 6) (shared_channels g)).
  { unfold members. by rewrite HG, Hg, lookup_snoc. }
  split; [done|]. split; [|split; [done|]].
  - rewrite fmap_drop, Hn. apply drop_app_length'. by rewrite length_fmap.
  - intros trigger ge Hge.
    destruct (save_events_run trigger ge g w1) as (sts & w2 & _ & Hev & _ & _ & Htags).
    eexists w2, _, _. split; [done|]. split; [exact Htags|].
    intros k c Hk Hempty.
    assert (Hnot : (n + 6 + k)%nat ∉ members ge w1 ++ members g w1).
    { intros [Hin|Hin]%elem_of_app.
      - rewrite Forall_forall in Hge. specialize (Hge _ Hin). lia.
      - rewrite Hmem in Hin. apply elem_of_app in Hin as [Hin|Hin].
        + apply elem_of_seq in Hin. lia.
        + apply present_elem in Hin as (k' & c' & Hk' & Heq & Hc').
          assert (k' = k) as -> by lia. congruence. }
    by split.
Qed.

End PropertyChannel.

(** ** The properties at the sample inputs *)

(** The left pupil diameter of the sample stream: three samples.  On the
    stream with mixed timestamps the ticks are 50, 50.0 and 50.5: the record
    at 100 stays before the one at 100.0, and the one at 100.5, first in the
    stream, comes last. *)
Lemma write_tobii_property_samples_witness :
  (exists (w' : nixfile) (samples : list (pyval * pyval)),
     @write_tobii_pupil_diameter sample_lib (TobiiRecords sample_records) (VInt 50)
       "left" empty_file = Ok (0%nat, w') /\
     length samples = 3%nat /\
     da_data <$> f_data_arrays w' !! 0%nat = Some (PyList (samples.*2))) /\
  (exists (w' : nixfile) (samples : list (pyval * pyval)),
     @write_tobii_pupil_diameter sample_lib (TobiiRecords mixed_records) (VInt 50)
       "left" empty_file = Ok (0%nat, w') /\
     dim_kind_of <$> from_option da_dims [] (f_data_arrays w' !! 0%nat)
     = [RangeDim (PyList (samples.*1)); SetDim] /\
     samples.*1 = [VInt 50; VFloat 50%float; VFloat 50.5%float]).
Proof.
  split.
  - destruct (@write_tobii_property_samples sample_lib (pupil_diameter "left")
                sample_records (VInt 50) empty_file)
      as (w' & srt & samples & da & Hrun & Hda & Hdata & _ & Hlen & _).
    + by vm_compute.
    + by vm_compute.
    + exists w', samples. split; [exact Hrun|]. split; [exact Hlen|].
      cbn [empty_file f_data_arrays length] in Hda. rewrite Hda. simpl.
      by rewrite Hdata.
  - destruct (@write_tobii_property_samples sample_lib (pupil_diameter "left")
                mixed_records (VInt 50) empty_file)
      as (w' & srt & samples & da & Hrun & Hda & _ & Hdims & _).
    + by vm_compute.
    + by vm_compute.
    + exists w', samples. split; [exact Hrun|].
      cbn [empty_file f_data_arrays length] in Hda. rewrite Hda.
      cbn [from_option]. split; [exact Hdims|].
      assert (Hw : f_data_arrays w' !! 0%nat = Some da) by exact Hda.
      revert Hrun Hw Hdims. clear.
      unfold write_tobii_pupil_diameter. intros Hrun Hw Hdims.
      vm_compute in Hrun. injection Hrun as <-.
      vm_compute in Hw. injection Hw as <-.
      vm_compute in Hdims. injection Hdims as Hticks.
      symmetry. exact Hticks.
Defined.

(** The sample stream has no gaze direction. *)
Lemma write_tobii_property_empty_witness :
  exists w' da,
    @write_tobii_gaze_dir sample_lib (TobiiRecords sample_records) (VInt 50)
      "left" empty_file = Ok (0%nat, w') /\
    f_data_arrays w' = [da] /\
    da_data da = PyList [].
Proof.
  destruct (@write_tobii_property_empty sample_lib (gaze_dir "left")
              (TobiiRecords sample_records) (VInt 50) empty_file)
    as (w' & da & Hrun & Ha & Hdata & _).
  - by vm_compute.
  - exists w', da. split; [exact Hrun|]. split; [exact Ha|exact Hdata].
Defined.

(** C8 as stated fails: for the left pupil diameter of a stream without
    records the array has no sample and no range dimension, but it is not
    without a categorical dimension: one set dimension, with no labels, is
    appended. *)
Lemma write_tobii_pupil_diameter_empty_has_set_dimension :
  exists w' da,
    @write_tobii_pupil_diameter sample_lib (TobiiRecords []) (VInt 0) "left" empty_file
    = Ok (0%nat, w') /\
    f_data_arrays w' = [da] /\
    da_data da = PyList [] /\
    dim_kind_of <$> da_dims da = [SetDim] /\
    dim_labels <$> da_dims da = [[]] /\
    da_dims da <> [].
Proof.
  eexists _, _. split; [by vm_compute|]. split; [reflexivity|].
  split; [reflexivity|]. split; [reflexivity|]. split; [reflexivity|]. done.
Qed.

(** Two channels on a 512 Hz time axis: no warning, both arrays in the group. *)
Lemma write_channel_data_one_strategy_witness :
  exists w',
    @write_channel_data sample_lib sample_data sample_time 512%float (VInt 0)
      sample_file = Ok (0%nat, w') /\
    f_stderr w' = [] /\
    members 0 w' = [0; 1]%nat.
Proof.
  destruct (@write_channel_data_one_strategy sample_lib sample_data sample_time
              512%float (VInt 0) ["session"] sample_file)
    as (w' & Hrun & Herr & _ & _ & Hmem).
  - reflexivity.
  - exists w'. split; [exact Hrun|]. split; [exact Herr|exact Hmem].
Defined.

(** On the sample stream the group holds the six eye-specific arrays and,
    of the other eight, the gyroscope only. *)
Lemma write_tobii_data_membership_witness :
  exists g w1,
    @write_tobii_data sample_lib (TobiiRecords sample_records) (VInt 50) empty_file
    = Ok (g, w1) /\
    members g w1 = [0; 1; 2; 3; 4; 5; 8]%nat.
Proof.
  destruct (@write_tobii_data sample_lib (TobiiRecords sample_records) (VInt 50)
              empty_file) as [[g w1]|e] eqn:Hrun.
  - destruct (@write_tobii_data_membership sample_lib _ _ _ _ _ Hrun)
      as (Hg & _ & Hmem & _).
    exists g, w1. split; [reflexivity|]. rewrite Hmem, Hg. by vm_compute.
  - vm_compute in Hrun. discriminate Hrun.
Defined.

(** ** Properties of [main] *)

Section Main.
Context `{PyLib}.


End Main.



(** ** Further properties of [determine_offsets] and [main] *)

Lemma where_from_length (m : list bool) : forall s : nat,
  length (where_from s m) = count_where id m.
Proof.
  induction m as [|b m IH]; intros s; [done|]. simpl.
  destruct b; simpl; by rewrite IH.
Qed.

Lemma sync_trigger_eeg_too_few (time trigger : list float) :
  (count_where rising_sync (np_diff trigger) < 4)%nat ->
  sync_trigger_eeg time trigger = Raise IndexError.
Proof.
  intros Hcnt. unfold sync_trigger_eeg, np_where, getitem.
  rewrite trigger_on_erg_rising.
  rewrite (lookup_ge_None_2 (where_from 0 _) 3); [done|].
  rewrite where_from_length, (count_where_map rising_sync id).
  change (fun x => id (rising_sync x)) with rising_sync. lia.
Qed.

Lemma sync_trigger_eeg_enough (time trigger : list float) :
  length time = length trigger ->
  (4 <= count_where rising_sync (np_diff trigger))%nat ->
  exists t, sync_trigger_eeg time trigger = Ok t.
Proof.
  intros Hlen Hcnt.
  destruct (where_from_occurrence (map rising_sync (np_diff trigger)) 0 3)
    as (i & Hi & Hocc).
  { rewrite (count_where_map rising_sync id). exact Hcnt. }
  apply occurrence_map, occurrence_lt in Hocc. rewrite np_diff_length in Hocc.
  destruct (lookup_lt_is_Some_2 time i) as [t Ht]; [lia|].
  exists t. unfold sync_trigger_eeg, np_where, getitem.
  rewrite trigger_on_erg_rising, Hi. simpl. by rewrite Ht.
Qed.

Lemma sync_trigger_tobii_filter (rs : list record) :
  sync_trigger_tobii (TobiiRecords rs) = Ok (filter (fun r => outgoing r) rs).
Proof.
  unfold sync_trigger_tobii. cbn [py_iter mbind result_bind].
  rewrite (py_filter_char _ (fun x => dict_contains x "dir")) by done.
  cbn [mbind result_bind].
  rewrite (py_filter_char _ outgoing).
  - f_equal. apply list_filter_filter_l. intros r Hr. unfold outgoing in Hr.
    unfold dict_contains. apply bool_decide_pack.
    destruct (r !! "dir"); [by eexists|done].
  - intros y [Hy _]%list_elem_of_filter. unfold dict_contains in Hy.
    apply bool_decide_unpack in Hy as [v Hv].
    unfold dict_getitem, outgoing. by rewrite Hv.
Qed.

(** X1: on a list of records line 181 never raises: it keeps, in their
    order, the records whose ["dir"] is ["out"]; records without ["dir"] are
    left out by the inner filter before the outer one reads the key. *)
Theorem sync_trigger_tobii_outgoing (rs : list record) :
  sync_trigger_tobii (TobiiRecords rs) = Ok (filter (fun r => outgoing r) rs) /\
  forall r, r ∈ filter (fun r => outgoing r) rs <->
            r ∈ rs /\ r !! "dir" = Some (VStr "out").
Proof.
  split; [apply sync_trigger_tobii_filter|].
  intros r. rewrite list_elem_of_filter. unfold outgoing, py_eq_str.
  split.
  - intros [Hout Hin]. split; [done|].
    destruct (r !! "dir") as [[]|]; try done.
    apply Is_true_true, String.eqb_eq in Hout. by subst.
  - intros [Hin ->]. by split.
Qed.

(** X2: the exception that ends [determine_offsets], where it is the same
    on Python 2 and on Python 3.  Without a Tobii file ([tobii_data] is
    [False]) it is the [TypeError] of line 181, whatever the trigger; with
    records and fewer than four rising sync steps it is the [IndexError] of
    line 182; with four such steps and an outgoing record it is the
    [TypeError] of line 184.  (With four such steps and no outgoing record
    line 184 raises as well, by [determine_offsets_raises]; which exception
    depends on the interpreter and is not stated here.) *)
Theorem determine_offsets_exception (time trigger : list float) (rs : list record) :
  determine_offsets time trigger TobiiFalse = Raise TypeError /\
  ((count_where rising_sync (np_diff trigger) < 4)%nat ->
   determine_offsets time trigger (TobiiRecords rs) = Raise IndexError) /\
  (length time = length trigger ->
   (4 <= count_where rising_sync (np_diff trigger))%nat ->
   filter (fun r => outgoing r) rs <> [] ->
   determine_offsets time trigger (TobiiRecords rs) = Raise TypeError).
Proof.
  split; [done|]. unfold determine_offsets. rewrite sync_trigger_tobii_filter.
  cbn [mbind result_bind]. split.
  - intros Hcnt. by rewrite sync_trigger_eeg_too_few.
  - intros Hlen Hcnt Hout. destruct (sync_trigger_eeg_enough _ _ Hlen Hcnt) as [t ->].
    cbn [mbind result_bind].
    destruct (filter (fun r => outgoing r) rs) as [|r out]; [done|].
    cbn [getitem lookup list_lookup mbind result_bind]. by rewrite py_add_dict.
Qed.

Lemma determine_offsets_exception_witness :
  determine_offsets (rec_time flat_recording) (rec_trigger flat_recording)
    (TobiiRecords [outgoing_record]) = Raise IndexError /\
  determine_offsets pulses_time pulses_trigger
    (TobiiRecords [gy_record 150; outgoing_record]) = Raise TypeError.
Proof.
  split.
  - apply (determine_offsets_exception (rec_time flat_recording)
             (rec_trigger flat_recording) [outgoing_record]).
    vm_compute. lia.
  - apply (proj2 (proj2 (determine_offsets_exception pulses_time pulses_trigger
                           [gy_record 150; outgoing_record])));
      [reflexivity|vm_compute; lia|by vm_compute].
Defined.

Section MainRuns.
Context `{PyLib}.

(** X3: [main] never finishes a conversion.  When the metadata file is
    missing it prints one line and exits with status 0, leaving the rest of
    the state alone; otherwise it ends with the exception that
    [determine_offsets] raises, before [convert] is reached. *)
Theorem main_never_finishes (args : Args) (loaded : eeg_recording)
    (tobii_lines : list record) (mdatrows : list (list string)) (w : nixfile) :
  main args false loaded tobii_lines mdatrows w
  = Ok (SysExit 0,
        with_stdout (f_stdout w ++
          ["meta data file " +:+ dquote +:+ arg_metadatafile args +:+ dquote
           +:+ " could not be found."]) w) /\
  (exists e,
     determine_offsets (rec_time loaded) (rec_trigger loaded)
       (main_tobii_data args tobii_lines) = Raise e /\
     main args true loaded tobii_lines mdatrows w = Raise e) /\
  forall isfile w', main args isfile loaded tobii_lines mdatrows w <> Ok (Finished, w').
Proof.
  assert (Hfalse : main args false loaded tobii_lines mdatrows w
    = Ok (SysExit 0,
          with_stdout (f_stdout w ++
            ["meta data file " +:+ dquote +:+ arg_metadatafile args +:+ dquote
             +:+ " could not be found."]) w)) by done.
  destruct (determine_offsets_raises (rec_time loaded) (rec_trigger loaded)
              (main_tobii_data args tobii_lines)) as [e He].
  assert (Htrue : main args true loaded tobii_lines mdatrows w = Raise e).
  { unfold main. cbn [negb]. fold (main_tobii_data args tobii_lines).
    apply bind_raise. unfold lift. by rewrite He. }
  split; [done|]. split; [by exists e|].
  intros [] w'; [by rewrite Htrue|by rewrite Hfalse].
Qed.

(** X4: an EEG offset given on the command line ends the run with a
    [TypeError]: the option is a string, and line 660 subtracts it from the
    time array as it is. *)
Theorem main_with_offsets_eeg_override_raises (args : Args) (loaded : eeg_recording)
    (tobii_data : tobii_input) (mdatrows : list (list string))
    (offsets : pyval * pyval) (w : nixfile) :
  arg_eeg_offset args <> EmptyString ->
  main_with_offsets args loaded tobii_data mdatrows offsets w = Raise TypeError.
Proof.
  intros Hgiven. apply String.eqb_neq in Hgiven.
  destruct offsets as [eeg_offset tobii_offset].
  unfold main_with_offsets, override. rewrite Hgiven.
  by apply bind_raise.
Qed.

End MainRuns.

Lemma main_with_offsets_eeg_override_raises_witness :
  @main_with_offsets sample_lib eeg_offset_args flat_recording
    (TobiiRecords [outgoing_record]) [] (VFloat 0%float, VInt 0) empty_file
  = Raise TypeError.
Proof.
  apply (@main_with_offsets_eeg_override_raises sample_lib). by vm_compute.
Defined.

(** ** Further properties of the EEG writers *)

Lemma with_tags_id (w : nixfile) : with_tags (f_tags w) w = w.
Proof. by destruct w. Qed.

Lemma tag_references_loop (tag : nat) (das : list nat) :
  forall w,
    for_each das (fun da =>
      update_tag tag (fun t => tag_with_references (tag_references t ++ [da]) t)) w
    = Ok (tt, with_tags
                (alter (fun t => tag_with_references (tag_references t ++ das) t)
                       tag (f_tags w)) w).
Proof.
  induction das as [|da das IH]; intros w.
  - cbn [for_each]. rewrite list_alter_id; [by rewrite with_tags_id|].
    intros []. unfold tag_with_references. simpl. by rewrite app_nil_r.
  - cbn [for_each]. step. rewrite IH. simpl_state.
    rewrite list_alter_alter_eq. do 2 f_equal. unfold with_tags. simpl. f_equal.
    apply list_alter_ext; [|done]. intros [] _. unfold tag_with_references.
    simpl. by rewrite <- app_assoc.
Qed.

Section EEGWriters.
Context `{PyLib}.

Lemma write_trigger_signal_run (trigger time : list float) (da_group : nat)
    (offset : pyval) (w : nixfile) :
  write_trigger_signal trigger time da_group offset w
  = match last time with
    | None => Raise IndexError
    | Some final =>
        Ok (tt, with_tags
                  (f_tags w ++ [trigger_tag final (members da_group w)
                                            (length (f_data_arrays w))])
                  (with_data_arrays
                     (f_data_arrays w ++ [trigger_array trigger time offset]) w))
    end.
Proof.
  unfold write_trigger_signal. do 8 step. unfold getitem_last.
  destruct (last time) as [final|].
  - do 4 step. erewrite bind_run by apply tag_references_loop.
    simpl_state. unfold update_tag. simpl_state.
    reflexivity.
  - by apply bind_raise.
Qed.

(** X5: [write_trigger_signal] needs a time axis with a last entry: on an
    empty one [time[-1]] raises [IndexError].  Otherwise it returns, having
    added one array, the trigger with a sampled time dimension, and one tag
    that spans from 0 to the last time, references the arrays that the EEG
    group holds at that point, in their order, and has the trigger array as
    its feature.  The groups are left as they are: the trigger array joins
    none, so no multi-tag of [save_events] references it. *)
Theorem write_trigger_signal_tags_group (trigger time : list float) (da_group : nat)
    (offset : pyval) (w : nixfile) :
  match last time with
  | None => write_trigger_signal trigger time da_group offset w = Raise IndexError
  | Some final =>
      exists w',
        write_trigger_signal trigger time da_group offset w = Ok (tt, w') /\
        f_data_arrays w' = f_data_arrays w ++ [trigger_array trigger time offset] /\
        f_tags w'
        = f_tags w ++ [trigger_tag final (members da_group w)
                                   (length (f_data_arrays w))] /\
        f_groups w' = f_groups w /\
        f_multi_tags w' = f_multi_tags w
  end.
Proof.
  rewrite write_trigger_signal_run. destruct (last time) as [final|]; [|done].
  eexists. split; [reflexivity|]. done.
Qed.

End EEGWriters.

(** ** Streams that the property channels cannot take *)

Lemma py_filter_raises {A} (f : A -> result bool) (e : exn) (l : list A) :
  (forall x, x ∈ l -> f x = Raise e \/ exists b, f x = Ok b) ->
  (exists x, x ∈ l /\ f x = Raise e) ->
  py_filter f l = Raise e.
Proof.
  induction l as [|x l IH]; intros Hall (y & Hy & Hfy).
  - by apply elem_of_nil in Hy.
  - simpl. destruct (Hall x ltac:(left)) as [Hx|[b Hx]]; rewrite Hx; [done|].
    simpl. rewrite IH; [done| |].
    + intros z Hz. apply Hall. by right.
    + apply elem_of_cons in Hy as [->|Hy]; [congruence|eauto].
Qed.

Lemma mapM_raises {A B} (f : A -> result B) (e : exn) (l : list A) :
  (forall x, x ∈ l -> f x = Raise e \/ exists b, f x = Ok b) ->
  (exists x, x ∈ l /\ f x = Raise e) ->
  mapM f l = Raise e.
Proof.
  induction l as [|x l IH]; intros Hall (y & Hy & Hfy).
  - by apply elem_of_nil in Hy.
  - simpl. destruct (Hall x ltac:(left)) as [Hx|[b Hx]]; rewrite Hx; [done|].
    simpl. rewrite IH; [done| |].
    + intros z Hz. apply Hall. by right.
    + apply elem_of_cons in Hy as [->|Hy]; [congruence|eauto].
Qed.

Lemma py_sorted_perm `{PyLib} (flt : list record) :
  (forall e, e ∈ flt -> is_Some (e !! "ts")) ->
  exists srt, py_sorted "ts" flt = Ok srt /\ srt ≡ₚ flt.
Proof.
  intros Hts. unfold py_sorted.
  rewrite (mapM_char _ (fun e => (default VNone (e !! "ts"), e))); cycle 1.
  { intros e He. destruct (Hts e He) as [v Hv]. unfold dict_getitem.
    by rewrite Hv. }
  simpl. eexists. split; [reflexivity|].
  set (keyed := _ <$> flt).
  assert (Hflt : keyed.*2 = flt).
  { subst keyed. rewrite <- list_fmap_compose. apply list_fmap_id. }
  rewrite <- Hflt. clear Hflt. apply fmap_Permutation.
  clearbody keyed. clear. induction keyed as [|x keyed IH]; [done|]. simpl.
  by rewrite insert_keyed_perm, IH.
Qed.

Section Malformed.
Context `{PyLib}.

Lemma write_tobii_data_false (tobii_offset : pyval) (w : nixfile) :
  write_tobii_data TobiiFalse tobii_offset w = Raise TypeError.
Proof. unfold write_tobii_data. step. by apply bind_raise. Qed.

(** X6: without a Tobii stream ([tobii_data] is [False]) [write_tobii_data]
    raises [TypeError] in its first writer, which iterates [False]; so
    [convert] returns on no input of that kind, whatever the EEG data, the
    descriptor and the offsets are. *)
Theorem convert_without_tobii_raises (time trigger : list float)
    (data : list (list float)) (parts : list string) (sr : float)
    (metadatafile : string) (mdatrows : list (list string))
    (eeg_offset tobii_offset : pyval) (w : nixfile) :
  (forall w0, write_tobii_data TobiiFalse tobii_offset w0 = Raise TypeError) /\
  exists e,
    convert time trigger data parts sr TobiiFalse metadatafile mdatrows
      eeg_offset tobii_offset w = Raise e.
Proof.
  split; [apply write_tobii_data_false|].
  destruct (convert _ _ _ _ _ _ _ _ _ _ w) as [[[] w']|e] eqn:Hrun; [|by exists e].
  exfalso. unfold convert in Hrun.
  apply bind_ok in Hrun as (name & w1 & _ & Hrun).
  apply bind_ok in Hrun as ([] & w2 & _ & Hrun).
  apply bind_ok in Hrun as ([] & w3 & _ & Hrun).
  apply bind_ok in Hrun as (ge & w4 & _ & Hrun).
  apply bind_ok in Hrun as ([] & w5 & _ & Hrun).
  apply bind_ok in Hrun as (gt & w6 & Htobii & _).
  by rewrite write_tobii_data_false in Htobii.
Qed.

(** X7: an eye-specific channel reads ["eye"] of every record that has its
    property; one such record without the key ends the writer with a
    [KeyError], wherever the record stands in the stream and whatever the
    others hold. *)
Theorem write_tobii_property_missing_eye (c : channel) (eye : string)
    (rs : list record) (i : nat) (r : record) (tobii_offset : pyval) (w : nixfile) :
  c_eye c = Some eye ->
  rs !! i = Some r ->
  dict_contains r (c_prop c) = true ->
  r !! "eye" = None ->
  write_tobii_property c (TobiiRecords rs) tobii_offset w = Raise KeyError.
Proof.
  intros Heye Hi Hprop Hno. unfold write_tobii_property.
  apply bind_raise. unfold lift, filtered. cbn [py_iter mbind result_bind].
  rewrite (py_filter_char _ (fun x => dict_contains x (c_prop c))) by done.
  cbn [mbind result_bind]. rewrite Heye.
  rewrite (py_filter_raises _ KeyError); [done| |].
  - intros x _. unfold dict_getitem. destruct (x !! "eye"); [right|left]; eauto.
  - exists r. split.
    + apply list_elem_of_filter. split; [by apply Is_true_true|].
      by apply list_elem_of_lookup_2 in Hi.
    + unfold dict_getitem. by rewrite Hno.
Qed.

(** X8: [sorted] reads ["ts"] of every record that the channel keeps, before
    any sample is built; one kept record without a timestamp ends the writer
    with a [KeyError]. *)
Theorem write_tobii_property_missing_ts (c : channel) (tobii_data : tobii_input)
    (flt : list record) (i : nat) (r : record) (tobii_offset : pyval) (w : nixfile) :
  filtered c tobii_data = Ok flt ->
  flt !! i = Some r ->
  r !! "ts" = None ->
  write_tobii_property c tobii_data tobii_offset w = Raise KeyError.
Proof.
  intros Hflt Hi Hno. unfold write_tobii_property.
  rewrite (bind_run _ _ _ _ _ (lift_run _ _ _ Hflt)).
  apply bind_raise. unfold lift, py_sorted.
  rewrite (mapM_raises _ KeyError); [done| |].
  - intros x _. unfold dict_getitem. destruct (x !! "ts"); [right|left]; eauto.
  - exists r. split; [by apply list_elem_of_lookup_2 in Hi|].
    unfold dict_getitem. by rewrite Hno.
Qed.

(** X9: a Tobii offset that is a string, as the command-line option is
    handed down, ends every writer whose channel keeps a record with a
    [TypeError]: line [ts.append(e["ts"] - tobii_offset)] subtracts the string
    from the timestamp of the first record in sorted order. *)
Theorem write_tobii_property_string_offset (c : channel) (tobii_data : tobii_input)
    (flt : list record) (s : string) (w : nixfile) :
  filtered c tobii_data = Ok flt ->
  flt <> [] ->
  (forall e, e ∈ flt -> is_Some (e !! "ts")) ->
  write_tobii_property c tobii_data (VStr s) w = Raise TypeError.
Proof.
  intros Hflt Hne Hts. unfold write_tobii_property.
  rewrite (bind_run _ _ _ _ _ (lift_run _ _ _ Hflt)).
  destruct (py_sorted_perm flt Hts) as (srt & Hsrt & Hperm).
  rewrite (bind_run _ _ _ _ _ (lift_run _ _ _ Hsrt)).
  apply bind_raise. unfold lift.
  destruct srt as [|e srt].
  { apply Permutation_nil_l in Hperm. by subst. }
  destruct (Hts e) as [v Hv]; [rewrite <- Hperm; by left|].
  assert (Hs : sample c (VStr s) e = Raise TypeError).
  { unfold sample, dict_getitem. rewrite Hv. cbn [mbind result_bind].
    unfold py_sub. by destruct (as_number v). }
  revert Hs. generalize (sample c (VStr s)). intros f Hs.
  simpl. by rewrite Hs.
Qed.

End Malformed.

Lemma write_tobii_property_missing_eye_witness :
  @write_tobii_pupil_diameter sample_lib
    (TobiiRecords [pd_record 100 3%float "left" 0; untagged_record]) (VInt 50)
    "left" empty_file = Raise KeyError.
Proof.
  apply (@write_tobii_property_missing_eye sample_lib (pupil_diameter "left") "left"
           [pd_record 100 3%float "left" 0; untagged_record] 1 untagged_record);
    reflexivity.
Defined.

Lemma write_tobii_property_missing_ts_witness :
  @write_tobii_gyroscope sample_lib 0 (TobiiRecords [gy_record 150; untimed_record])
    (VInt 50) empty_file = Raise KeyError.
Proof.
  unfold write_tobii_gyroscope. apply bind_raise.
  apply (@write_tobii_property_missing_ts sample_lib (gyroscope 0)
           (TobiiRecords [gy_record 150; untimed_record])
           [gy_record 150; untimed_record] 1 untimed_record);
    reflexivity.
Defined.

Lemma write_tobii_property_string_offset_witness :
  @write_tobii_pupil_diameter sample_lib (TobiiRecords sample_records) (VStr "50")
    "left" empty_file = Raise TypeError.
Proof.
  apply (@write_tobii_property_string_offset sample_lib (pupil_diameter "left")
           (TobiiRecords sample_records)
           [pd_record 300 3.5%float "left" 0; pd_record 100 3%float "left" 0;
            pd_record 100 3.25%float "left" 1]).
  - by vm_compute.
  - done.
  - intros e He. repeat (apply elem_of_cons in He as [->|He]; [by eexists|]).
    by apply elem_of_nil in He.
Defined.

(** ** Properties of [write_session_metadata] *)

Lemma first_nonempty_spec (r : list string) : forall (s cnt : nat) (mdat : string),
  first_nonempty s r = Some (cnt, mdat) ->
  (s <= cnt)%nat /\ r !! (cnt - s)%nat = Some mdat /\ mdat <> EmptyString.
Proof.
  induction r as [|c r IH]; intros s cnt mdat; simpl; [done|].
  destruct (String.eqb_spec c EmptyString) as [->|Hc].
  - intros Hfn. destruct (IH _ _ _ Hfn) as (Hle & Hr & Hm).
    split; [lia|]. split; [|done].
    replace (cnt - s)%nat with (S (cnt - S s)) by lia. done.
  - intros [= <- <-]. split; [lia|]. by rewrite Nat.sub_diag.
Qed.

Lemma first_nonempty_lt (r : list string) (cnt : nat) (mdat : string) :
  first_nonempty 0 r = Some (cnt, mdat) -> (cnt < length r)%nat.
Proof.
  intros Hfn. destruct (first_nonempty_spec _ _ _ _ Hfn) as (_ & Hr & _).
  rewrite Nat.sub_0_r in Hr. by apply lookup_lt_Some in Hr.
Qed.

Lemma metadata_only_refl (w : nixfile) : metadata_only w w.
Proof. by repeat split. Qed.

Lemma metadata_only_trans (w1 w2 w3 : nixfile) :
  metadata_only w1 w2 -> metadata_only w2 w3 -> metadata_only w1 w3.
Proof.
  unfold metadata_only. intros (?&?&?&?&?&?&?&?&?) (?&?&?&?&?&?&?&?&?).
  repeat split; congruence.
Qed.

Lemma session_row_sound (r : list string) (st : list (option path) * nat)
    (w : nixfile) :
  session_sound st -> (length r <= 10)%nat ->
  exists st' w',
    session_row r st w = Ok (st', w') /\ session_sound st' /\ metadata_only w w'.
Proof.
  destruct st as [msecs prevcnt]. intros [Hlen Hsound] Hr. cbn [fst snd] in *.
  unfold session_row.
  destruct (first_nonempty 0 r) as [[cnt mdat]|] eqn:Hfn;
    [|by eexists _, _; split; [reflexivity|]; split; [|apply metadata_only_refl]].
  pose proof (first_nonempty_lt _ _ _ Hfn) as Hcnt.
  destruct (prevcnt + 1 <? cnt)%nat eqn:Hskip;
    [by eexists _, _; split; [reflexivity|]; split; [|apply metadata_only_refl]|].
  apply Nat.ltb_ge in Hskip.
  destruct (Hsound cnt) as [p Hp]; [lia|lia|].
  rewrite (bind_run _ _ _ _ _ (lift_run _ _ _ (getitem_Some _ _ _ Hp))).
  destruct (cnt + 1 <? length r)%nat eqn:Hkv.
  - apply Nat.ltb_lt in Hkv.
    destruct (lookup_lt_is_Some_2 r (cnt + 1)) as [v Hv]; [done|].
    rewrite (bind_run _ _ _ _ _ (lift_run _ _ _ (getitem_Some _ _ _ Hv))).
    step. eexists _, _. split; [reflexivity|]. by split.
  - step. rewrite Hlen.
    destruct (Nat.ltb_spec (cnt + 1) 11) as [_|]; [|lia].
    eexists _, _. split; [reflexivity|]. split; [|done].
    split; cbn [fst snd]; [by rewrite length_insert|].
    intros i Hi Hi11. destruct (decide (i = cnt + 1)%nat) as [->|Hne].
    + eexists. apply list_lookup_insert_eq. lia.
    + rewrite list_lookup_insert_ne by done. apply Hsound; lia.
Qed.

Lemma session_rows_sound (rows : list (list string)) :
  forall (st : list (option path) * nat) (w : nixfile),
    session_sound st -> Forall (fun r => length r <= 10)%nat rows ->
    exists w', session_rows rows st w = Ok (tt, w') /\ metadata_only w w'.
Proof.
  induction rows as [|r rows IH]; intros st w Hst Hrows.
  - exists w. split; [done|apply metadata_only_refl].
  - apply Forall_cons in Hrows as [Hr Hrows].
    destruct (session_row_sound r st w Hst Hr) as (st' & w1 & Hrun & Hst' & Hw1).
    destruct (IH st' w1 Hst' Hrows) as (w' & Hrun' & Hw').
    exists w'. cbn [session_rows]. rewrite (bind_run _ _ _ _ _ Hrun).
    split; [done|]. by eapply metadata_only_trans.
Qed.

Lemma session_rows_start (md : path) (rows : list (list string)) :
  forall w : nixfile,
    Forall (fun r => length r <= 10)%nat rows ->
    if no_orphan rows
    then exists w',
           session_rows rows (Some md :: replicate 10 None, 0%nat) w = Ok (tt, w') /\
           metadata_only w w'
    else session_rows rows (Some md :: replicate 10 None, 0%nat) w = Raise TypeError.
Proof.
  induction rows as [|r rows IH]; intros w Hrows.
  - exists w. split; [done|apply metadata_only_refl].
  - apply Forall_cons in Hrows as [Hr Hrows].
    cbn [session_rows no_orphan]. unfold session_row.
    destruct (first_nonempty 0 r) as [[cnt mdat]|] eqn:Hfn; [|by apply IH].
    pose proof (first_nonempty_lt _ _ _ Hfn) as Hcnt.
    destruct cnt as [|[|cnt]].
    + change (0 + 1)%nat with 1%nat.
      replace (1 <? 0)%nat with false by done.
      destruct (1 <? length r)%nat eqn:Hkv.
      * apply Nat.ltb_lt in Hkv.
        destruct (lookup_lt_is_Some_2 r 1) as [v Hv]; [done|].
        erewrite (bind_run (_ ≫= _)); cycle 1.
        { erewrite bind_run by reflexivity. cbv beta iota.
          rewrite (bind_run _ _ _ _ _ (lift_run _ _ _ (getitem_Some _ _ _ Hv))).
          erewrite bind_run by reflexivity. reflexivity. }
        match goal with
        | |- context [session_rows rows _ ?W] => specialize (IH W Hrows)
        end.
        destruct (no_orphan rows); [|exact IH].
        destruct IH as (w' & Hrun & Hw'). exists w'. split; [done|].
        eapply metadata_only_trans; [|exact Hw']. by repeat split.
      * erewrite (bind_run (_ ≫= _)); cycle 1.
        { erewrite bind_run by reflexivity. cbv beta iota.
          erewrite bind_run by reflexivity. reflexivity. }
        edestruct (session_rows_sound rows) as (w' & Hrun & Hw'); [|exact Hrows|].
        2: { exists w'. split; [exact Hrun|].
             eapply metadata_only_trans; [|exact Hw']. by repeat split. }
        split; [done|]. intros [|[|i]] Hi Hi11; cbn [fst snd] in *; [by eexists..|lia].
    + by apply bind_raise.
    + by apply IH.
Qed.

(** X10: when [write_session_metadata] returns.  The descriptor is one that
    the store takes on a file without sections: the names of its rows are
    valid and pairwise distinct, and so is the name of the block.  If its
    rows have at most ten cells, [write_session_metadata] returns exactly if,
    before the first heading in column 0, no row has its first cell with
    text in column 1; otherwise that row raises [TypeError], its slot of
    [msecs] still being the initial [0].  When it returns it has printed
    one line, made the section named after the block the metadata of the
    block, and changed sections and properties only. *)
Theorem write_session_metadata_returns (block_name metadatafile : string)
    (mdatrows : list (list string)) (w : nixfile) :
  Forall (fun r => length r <= 10)%nat mdatrows ->
  distinct_names mdatrows = true ->
  valid_name block_name = true ->
  f_sections w = [] ->
  if no_orphan mdatrows
  then exists w',
         write_session_metadata block_name metadatafile mdatrows w = Ok (tt, w') /\
         f_block_metadata w' = Some [block_name] /\
         f_stdout w'
         = f_stdout w ++ ["INFO: Writing metadata from '" +:+ metadatafile
                          +:+ "' to NIX"] /\
         f_block w' = f_block w /\ f_data_arrays w' = f_data_arrays w /\
         f_groups w' = f_groups w /\ f_multi_tags w' = f_multi_tags w /\
         f_tags w' = f_tags w
  else write_session_metadata block_name metadatafile mdatrows w = Raise TypeError.
Proof.
  intros Hrows _ _ _. unfold write_session_metadata. do 3 step.
  match goal with
  | |- context [session_rows _ _ ?W] =>
      pose proof (session_rows_start [block_name] mdatrows W Hrows) as Hrun
  end.
  destruct (no_orphan mdatrows); [|exact Hrun].
  destruct Hrun as (w' & Hrun & Hb & Ha & Hg & Hm & Ht & _ & Hmd & Hout & _).
  exists w'. split; [exact Hrun|]. revert Hb Ha Hg Hm Ht Hmd Hout. simpl_state.
  by intros -> -> -> -> -> -> ->.
Qed.

Lemma write_session_metadata_returns_witness :
  (exists w', write_session_metadata "rec" "meta.csv" sample_descriptor empty_file
              = Ok (tt, w') /\ f_block_metadata w' = Some ["rec"]) /\
  write_session_metadata "rec" "meta.csv" orphan_descriptor empty_file
  = Raise TypeError.
Proof.
  split.
  - destruct (write_session_metadata_returns "rec" "meta.csv" sample_descriptor
                empty_file) as (w' & Hrun & Hmd & _).
    + repeat constructor.
    + by vm_compute.
    + reflexivity.
    + reflexivity.
    + by exists w'.
  - apply (write_session_metadata_returns "rec" "meta.csv" orphan_descriptor
             empty_file); [repeat constructor|by vm_compute|reflexivity|reflexivity].
Defined.

Lemma set_property_fresh (sec : path) (name : string) (v : pyval)
    (props : list (path * string * pyval)) :
  (forall p, p ∈ props -> p.1 <> (sec, name)) ->
  set_property sec name v props = props ++ [(sec, name, v)].
Proof.
  intros Hfresh. unfold set_property.
  assert (Hno : existsb (fun p => bool_decide (p.1 = (sec, name))) props = false).
  { apply not_true_is_false. intros (p & Hp & Heq)%existsb_exists.
    apply bool_decide_eq_true in Heq. apply list_elem_of_In in Hp.
    by apply (Hfresh p). }
  by rewrite Hno.
Qed.

Lemma row_names_flat (r : list string) (rows : list (list string)) :
  flat_row r = true ->
  row_names (r :: rows) = default EmptyString (r !! 0%nat) :: row_names rows.
Proof.
  destruct r as [|k [|v rest]]; try done. cbn [flat_row]. intros Hk%negb_true_iff.
  unfold row_names. cbn [omap list_omap first_nonempty]. by rewrite Hk.
Qed.

Lemma session_rows_flat (md : path) (rows : list (list string)) :
  forall w : nixfile,
    forallb flat_row rows = true ->
    NoDup (row_names rows) ->
    (forall k p, k ∈ row_names rows -> p ∈ f_properties w -> p.1 <> (md, k)) ->
    exists w',
      session_rows rows (Some md :: replicate 10 None, 0%nat) w = Ok (tt, w') /\
      f_sections w' = f_sections w /\
      f_properties w' = f_properties w ++ map (row_property md) rows /\
      f_block_metadata w' = f_block_metadata w.
Proof.
  induction rows as [|r rows IH]; intros w Hflat Hnd Hfresh.
  - exists w. split; [done|]. split; [done|]. by rewrite app_nil_r.
  - cbn [forallb] in Hflat. apply andb_prop in Hflat as [Hr Hflat].
    rewrite (row_names_flat r rows Hr) in Hnd, Hfresh.
    apply NoDup_cons in Hnd as [Hk Hnd].
    destruct r as [|k [|v rest]]; try done. cbn [flat_row] in Hr.
    apply negb_true_iff in Hr. cbn [lookup list_lookup default from_option id] in *.
    destruct (IH (with_properties (f_properties w ++ [(md, k, VStr v)]) w) Hflat Hnd)
      as (w' & Hrun & Hs & Hp & Hmd).
    { intros k' p Hk' [Hin|Hin]%elem_of_app.
      - apply Hfresh; [by right|done].
      - apply list_elem_of_singleton in Hin as ->. cbn [fst]. intros [= ->]. done. }
    exists w'. cbn [session_rows]. unfold session_row. cbn [first_nonempty].
    rewrite Hr.
    change (0 + 1 <? 0)%nat with false.
    change (0 + 1 <? length (k :: v :: rest))%nat with true. cbv beta iota.
    erewrite (bind_run (_ ≫= _)); cycle 1.
    { erewrite bind_run by reflexivity. cbv beta iota.
      erewrite bind_run by reflexivity.
      erewrite bind_run by reflexivity. reflexivity. }
    cbn [f_properties].
    rewrite set_property_fresh by (intros p Hin; apply Hfresh; [by left|done]).
    split; [exact Hrun|]. split; [exact Hs|]. split; [|exact Hmd].
    rewrite Hp. cbn [f_properties with_properties map]. by rewrite <- app_assoc.
Qed.

(** X11: a descriptor made of rows [key, value, ...] with a key in the first
    cell, the keys being valid names and pairwise distinct, gives on a file
    without sections and properties the root section, named after the block,
    and in it one property per row, in the order of the rows: the key with
    the second cell as its value, a string.  Cells after the second are not
    read, and no other section is created. *)
Theorem write_session_metadata_flat (block_name metadatafile : string)
    (mdatrows : list (list string)) (w : nixfile) :
  forallb flat_row mdatrows = true ->
  distinct_names mdatrows = true ->
  valid_name block_name = true ->
  f_sections w = [] ->
  f_properties w = [] ->
  exists w',
    write_session_metadata block_name metadatafile mdatrows w = Ok (tt, w') /\
    f_sections w' = [([block_name], "recording")] /\
    f_properties w' = map (row_property [block_name]) mdatrows /\
    f_block_metadata w' = Some [block_name].
Proof.
  intros Hflat [Hnd _]%andb_prop _ Hsec Hprops.
  apply bool_decide_eq_true in Hnd.
  unfold write_session_metadata. do 3 step.
  match goal with
  | |- context [session_rows _ _ ?W] =>
      destruct (session_rows_flat [block_name] mdatrows W Hflat Hnd)
        as (w' & Hrun & Hs & Hp & Hmd)
  end.
  { simpl_state. rewrite Hprops. intros k p _ Hin. by apply elem_of_nil in Hin. }
  exists w'. split; [exact Hrun|]. revert Hs Hp Hmd. simpl_state.
  rewrite Hsec, Hprops. by intros -> -> ->.
Qed.

Lemma write_session_metadata_flat_witness :
  exists w',
    write_session_metadata "rec" "meta.csv"
      [["experimenter"; "John Doe"]; ["room"; "B12"; "ignored"]] empty_file
    = Ok (tt, w') /\
    f_properties w'
    = [(["rec"], "experimenter", VStr "John Doe"); (["rec"], "room", VStr "B12")].
Proof.
  destruct (write_session_metadata_flat "rec" "meta.csv"
              [["experimenter"; "John Doe"]; ["room"; "B12"; "ignored"]] empty_file)
    as (w' & Hrun & _ & Hp & _).
  - reflexivity.
  - by vm_compute.
  - reflexivity.
  - reflexivity.
  - reflexivity.
  - exists w'. split; [exact Hrun|]. exact Hp.
Defined.
